(** * Oracle integration proxy (proxy.py): a shallow embedding and its properties

    The proxy forwards CRUD requests to one upstream REST collection, turns
    upstream and transport failures into HTTP exceptions, and serves two derived
    views (a health check and summary statistics).

    Python values are embedded as the inductive [value]; exceptions as [exn];
    a handler is a computation in the monad [M], which threads the log (the
    only state of the process) and may raise.  The upstream and the time service
    are the environment: a function from the outbound request to its outcome. *)

From Stdlib Require Import ZArith List String Ascii Bool Lia Floats DecimalString.
Import ListNotations.
Set Warnings "-register-all".
Local Open Scope string_scope.
Local Open Scope Z_scope.

(** ** Python values *)

(** What [json.loads] produces and what the handlers return: [None], [bool],
    [int], [float] (binary64), [str], [list] and [dict].  A dict is kept as its
    items in insertion order; its keys are distinct. *)
Inductive value : Type :=
| VNone
| VBool (b : bool)
| VInt (n : Z)
| VFloat (x : float)
| VStr (s : string)
| VList (items : list value)
| VDict (entries : list (string * value)).

(** [type(v).__name__], as it appears in the interpreter's messages. *)
Definition type_name (v : value) : string :=
  match v with
  | VNone => "NoneType"
  | VBool _ => "bool"
  | VInt _ => "int"
  | VFloat _ => "float"
  | VStr _ => "str"
  | VList _ => "list"
  | VDict _ => "dict"
  end.

(** [str(n)] for an [int]. *)
Definition str_int (n : Z) : string := NilZero.string_of_int (Z.to_int n).

(** ** Exceptions *)

(** The classes the source's [except] clauses name, and any other class. *)
Inductive pyclass : Type :=
| ReqTimeout            (* requests.exceptions.Timeout *)
| ReqConnectionError    (* requests.exceptions.ConnectionError *)
| RequestException      (* requests.exceptions.RequestException *)
| OtherClass (name : string).

Definition pyclass_eqb (c d : pyclass) : bool :=
  match c, d with
  | ReqTimeout, ReqTimeout => true
  | ReqConnectionError, ReqConnectionError => true
  | RequestException, RequestException => true
  | OtherClass a, OtherClass b => String.eqb a b
  | _, _ => false
  end.

(** An exception object: FastAPI's [HTTPException] with the two attributes the
    source reads, or any other exception (of class [Exception]), given by the
    further classes it is an instance of and by [str(e)]. *)
Inductive exn : Type :=
| HTTPException (status_code : Z) (detail : value)
| PyError (classes : list pyclass) (message : string).

Definition isinstance (e : exn) (c : pyclass) : bool :=
  match e with
  | HTTPException _ _ => false
  | PyError classes _ => existsb (pyclass_eqb c) classes
  end.

Definition AttributeError (msg : string) : exn := PyError [OtherClass "AttributeError"] msg.
Definition TypeError (msg : string) : exn := PyError [OtherClass "TypeError"] msg.
Definition ValueError (msg : string) : exn := PyError [OtherClass "ValueError"] msg.
Definition KeyError (msg : string) : exn := PyError [OtherClass "LookupError"; OtherClass "KeyError"] msg.
Definition OverflowError (msg : string) : exn :=
  PyError [OtherClass "ArithmeticError"; OtherClass "OverflowError"] msg.

(** ** Results and the handler monad *)

Inductive result (A : Type) : Type :=
| Ok (a : A)
| Exc (e : exn).
Arguments Ok {A} a.
Arguments Exc {A} e.

Inductive log_level : Type := INFO | ERROR.

(** One line written through [logger]. *)
Definition log_line : Type := log_level * string.

(** A computation: from the log so far to a result and the log after. *)
Definition M (A : Type) : Type := list log_line -> result A * list log_line.

Definition ret {A} (a : A) : M A := fun log => (Ok a, log).
Definition raise {A} (e : exn) : M A := fun log => (Exc e, log).
Definition lift {A} (r : result A) : M A := fun log => (r, log).

Definition bind {A B} (m : M A) (k : A -> M B) : M B :=
  fun log =>
    match m log with
    | (Ok a, log') => k a log'
    | (Exc e, log') => (Exc e, log')
    end.

(** [try: body  except ... as e: handler e]; a handler that does not match
    re-raises. *)
Definition try_except {A} (body : M A) (handler : exn -> M A) : M A :=
  fun log =>
    match body log with
    | (Ok a, log') => (Ok a, log')
    | (Exc e, log') => handler e log'
    end.

Declare Scope py_scope.
Delimit Scope py_scope with py.
Notation "x <- m ;; k" := (bind m (fun x => k))
  (at level 100, m at next level, right associativity) : py_scope.
Notation "m ;;; k" := (bind m (fun _ => k))
  (at level 100, right associativity) : py_scope.
Local Open Scope py_scope.

(** The same sequencing for code that touches no state. *)
Definition rbind {A B} (r : result A) (k : A -> result B) : result B :=
  match r with
  | Ok a => k a
  | Exc e => Exc e
  end.
Notation "x <~ r ;; k" := (rbind r (fun x => k))
  (at level 100, r at next level, right associativity) : py_scope.

Definition logger_info (msg : string) : M unit := fun log => (Ok tt, (log ++ [(INFO, msg)])%list).
Definition logger_error (msg : string) : M unit := fun log => (Ok tt, (log ++ [(ERROR, msg)])%list).

(** ** Builtins the source calls *)

Fixpoint lookup (k : string) (entries : list (string * value)) : option value :=
  match entries with
  | [] => None
  | (k', v) :: rest => if String.eqb k k' then Some v else lookup k rest
  end.

(** [obj.get(key, default)]: only a dict has the method. *)
Definition get (obj : value) (key : string) (default : value) : result value :=
  match obj with
  | VDict entries =>
      match lookup key entries with
      | Some v => Ok v
      | None => Ok default
      end
  | _ => Exc (AttributeError ("'" ++ type_name obj ++ "' object has no attribute 'get'"))
  end.

(** [obj[key]] for a string key. *)
Definition getitem (obj : value) (key : string) : result value :=
  match obj with
  | VDict entries =>
      match lookup key entries with
      | Some v => Ok v
      | None => Exc (KeyError ("'" ++ key ++ "'"))
      end
  | VList _ => Exc (TypeError "list indices must be integers or slices, not str")
  | VStr _ => Exc (TypeError "string indices must be integers, not 'str'")
  | _ => Exc (TypeError ("'" ++ type_name obj ++ "' object is not subscriptable"))
  end.

(** [len(obj)]. *)
Definition len (obj : value) : result Z :=
  match obj with
  | VList items => Ok (Z.of_nat (List.length items))
  | VDict entries => Ok (Z.of_nat (List.length entries))
  | VStr s => Ok (Z.of_nat (String.length s))
  | _ => Exc (TypeError ("object of type '" ++ type_name obj ++ "' has no len()"))
  end.

(** The elements [for r in obj] visits: the items of a list, the keys of a
    dict, the characters of a string. *)
Definition iter (obj : value) : result (list value) :=
  match obj with
  | VList items => Ok items
  | VDict entries => Ok (map (fun kv => VStr (fst kv)) entries)
  | VStr s => Ok (map (fun c => VStr (String c EmptyString)) (list_ascii_of_string s))
  | _ => Exc (TypeError ("'" ++ type_name obj ++ "' object is not iterable"))
  end.

(** [bool(v)], the test of [if v:]. *)
Definition truthy (v : value) : bool :=
  match v with
  | VNone => false
  | VBool b => b
  | VInt n => negb (n =? 0)
  | VFloat x => negb (PrimFloat.eqb x 0%float)
  | VStr s => negb (String.eqb s "")
  | VList items => match items with [] => false | _ => true end
  | VDict entries => match entries with [] => false | _ => true end
  end.

(** [v == s] for a string [s]: only an equal string compares equal. *)
Definition eq_str (v : value) (s : string) : bool :=
  match v with
  | VStr t => String.eqb t s
  | _ => false
  end.

(** *** [float(x)] *)

(** The decimal grammar [float] accepts for a string, after stripping blanks:
    [[sign] (digits [. [digits]] | . digits) [(e|E) [sign] digits]], or
    [inf], [infinity], [nan] in any case.  Digits may be grouped by single
    underscores.  Strings are read as ASCII (the digits and blanks of other
    scripts, which Python also accepts, are outside this model). *)
Module FloatSyntax.

Definition is_space (c : ascii) : bool :=
  let n := nat_of_ascii c in
  ((9 <=? n) && (n <=? 13) || (n =? 32))%nat.

Definition digit_of (c : ascii) : option Z :=
  let n := nat_of_ascii c in
  if ((48 <=? n) && (n <=? 57))%nat then Some (Z.of_nat n - 48) else None.

Definition lower (c : ascii) : ascii :=
  let n := nat_of_ascii c in
  if ((65 <=? n) && (n <=? 90))%nat then ascii_of_nat (n + 32) else c.

Fixpoint lstrip (s : list ascii) : list ascii :=
  match s with
  | c :: s' => if is_space c then lstrip s' else s
  | [] => []
  end.

Definition strip (s : list ascii) : list ascii := rev (lstrip (rev (lstrip s))).

(** After a digit: further digits, each possibly preceded by one underscore.
    [m] is the number read so far and [k] counts its digits. *)
Fixpoint more_digits (s : list ascii) (m k : Z) : Z * Z * list ascii :=
  match s with
  | c :: s' =>
      match digit_of c with
      | Some d => more_digits s' (10 * m + d) (k + 1)
      | None =>
          if Ascii.eqb c "_" then
            match s' with
            | c2 :: s'' =>
                match digit_of c2 with
                | Some d => more_digits s'' (10 * m + d) (k + 1)
                | None => (m, k, s)
                end
            | [] => (m, k, s)
            end
          else (m, k, s)
      end
  | [] => (m, k, [])
  end.

(** One or more digits, continuing the number [m]. *)
Definition digitpart (s : list ascii) (m : Z) : option (Z * Z * list ascii) :=
  match s with
  | c :: s' =>
      match digit_of c with
      | Some d => Some (more_digits s' (10 * m + d) 1)
      | None => None
      end
  | [] => None
  end.

(** The mantissa: all its digits as one integer, and how many of them stand
    after the point. *)
Definition number (s : list ascii) : option (Z * Z * list ascii) :=
  match digitpart s 0 with
  | Some (m, _, rest) =>
      match rest with
      | c :: r =>
          if Ascii.eqb c "." then
            match digitpart r m with
            | Some (m', k, rest') => Some (m', k, rest')
            | None => Some (m, 0, r)
            end
          else Some (m, 0, rest)
      | [] => Some (m, 0, [])
      end
  | None =>
      match s with
      | c :: r => if Ascii.eqb c "." then digitpart r 0 else None
      | [] => None
      end
  end.

Definition sign (s : list ascii) : bool * list ascii :=
  match s with
  | c :: r => if Ascii.eqb c "-" then (true, r) else if Ascii.eqb c "+" then (false, r) else (false, s)
  | [] => (false, [])
  end.

(** The exponent, when the rest of the string is one. *)
Definition exponent (s : list ascii) : option Z :=
  match s with
  | [] => Some 0
  | c :: r =>
      if Ascii.eqb (lower c) "e" then
        let (neg, r') := sign r in
        match digitpart r' 0 with
        | Some (e, _, []) => Some (if neg then - e else e)
        | _ => None
        end
      else None
  end.

(** The binary64 number nearest to [m * 10^e] (ties to even), for [0 <= m]. *)
Definition nearest (m e : Z) : float :=
  match m with
  | Zpos p =>
      if 0 <=? e then SF2Prim (binary_normalize prec emax (m * 10 ^ e) 0 false)
      else SF2Prim (SFdiv prec emax (S754_finite false p 0)
                      (S754_finite false (Z.to_pos (10 ^ (- e))) 0))
  | _ => 0%float
  end.

Inductive parsed : Type :=
| Decimal (neg : bool) (m e : Z)
| Infinite (neg : bool)
| NotANumber.

Definition parse (s : string) : option parsed :=
  let (neg, body) := sign (strip (list_ascii_of_string s)) in
  let word := string_of_list_ascii (map lower body) in
  if String.eqb word "inf" || String.eqb word "infinity" then Some (Infinite neg)
  else if String.eqb word "nan" then Some NotANumber
  else
    match number body with
    | Some (m, k, rest) =>
        match exponent rest with
        | Some e => Some (Decimal neg m (e - k))
        | None => None
        end
    | None => None
    end.

Definition to_float (p : parsed) : float :=
  match p with
  | Decimal neg m e => if neg then (- nearest m e)%float else nearest m e
  | Infinite neg => if neg then neg_infinity else infinity
  | NotANumber => nan
  end.

End FloatSyntax.

(** [float(n)] for an [int]: the nearest binary64 number, or [OverflowError]. *)
Definition float_of_int (n : Z) : result float :=
  let x := SF2Prim (binary_normalize prec emax n 0 false) in
  if is_infinity x then Exc (OverflowError "int too large to convert to float") else Ok x.

(** [float(v)].  The text of the [ValueError] quotes the string as [repr] does
    for a string without quotes or escapes. *)
Definition float_ (v : value) : result float :=
  match v with
  | VFloat x => Ok x
  | VInt n => float_of_int n
  | VBool b => Ok (if b then 1%float else 0%float)
  | VStr s =>
      match FloatSyntax.parse s with
      | Some p => Ok (FloatSyntax.to_float p)
      | None => Exc (ValueError ("could not convert string to float: '" ++ s ++ "'"))
      end
  | _ => Exc (TypeError ("float() argument must be a string or a real number, not '"
                          ++ type_name v ++ "'"))
  end.

(** [sum(xs)] over floats: the start value is the int [0]; from the first
    float on the running total is a float, added to from left to right (the
    interpreter up to 3.11; later ones carry a compensation term, which is
    zero, and the result the same, whenever the additions are exact). *)
Definition sum_ (xs : list float) : value :=
  match xs with
  | [] => VInt 0
  | _ => VFloat (fold_left PrimFloat.add xs 0%float)
  end.

(** ** The environment: outbound HTTP through [requests] *)

(** The arguments of one outbound call. *)
Record request : Type := {
  req_method : string;
  req_url : string;
  req_json : value;                       (* json=..., None when absent *)
  req_timeout : option Z;                 (* timeout=..., in seconds *)
  req_headers : list (string * string)    (* headers=... given by the caller *)
}.

(** What the source reads of a [requests.Response]: its status code, and what
    calling [response.json()] gives: the decoded body, or the exception the
    decoder raises on a body that is not JSON. *)
Record response : Type := {
  status_code : Z;
  json : result value
}.

(** An outbound call returns a response or raises.  The environment fixes the
    outcome of each call by its arguments; no handler issues the same call
    twice. *)
Inductive outcome : Type :=
| Responds (r : response)
| Throws (e : exn).

Definition network : Type := request -> outcome.

(** [requests.request(method=, url=, json=, timeout=, headers=)]. *)
Definition requests_request (net : network) (method url : string) (body : value)
  (timeout : option Z) (headers : list (string * string)) : M response :=
  match net {| req_method := method; req_url := url; req_json := body;
               req_timeout := timeout; req_headers := headers |} with
  | Responds r => ret r
  | Throws e => raise e
  end.

(** [requests.get(url, timeout=)]. *)
Definition requests_get (net : network) (url : string) (timeout : option Z) : M response :=
  requests_request net "get" url VNone timeout [].

Definition ORACLE_URL : string :=
  "https://gp8wf9ag.adb.me-jeddah-1.oraclecloud.com/ords/petrolube_staging/table1_11/".

(** The time service, which the source names by this literal at both its uses. *)
Definition TIME_URL : string := "http://worldtimeapi.org/api/timezone/Asia/Riyadh".

(** *** Comprehensions and loops over a list, stopping at the first exception *)

Fixpoint filter_r {A} (p : A -> result bool) (l : list A) : result (list A) :=
  match l with
  | [] => Ok []
  | a :: rest =>
      keep <~ p a ;;
      rest' <~ filter_r p rest ;;
      Ok (if keep then a :: rest' else rest')
  end.

Fixpoint map_r {A B} (f : A -> result B) (l : list A) : result (list B) :=
  match l with
  | [] => Ok []
  | a :: rest =>
      b <~ f a ;;
      rest' <~ map_r f rest ;;
      Ok (b :: rest')
  end.

Fixpoint fold_r {A S} (f : S -> A -> result S) (l : list A) (s : S) : result S :=
  match l with
  | [] => Ok s
  | a :: rest =>
      s' <~ f s a ;;
      fold_r f rest s'
  end.

(** *** A dict keyed by arbitrary hashable values *)

(** Two keys are the same key of a dict when they are equal and hash alike:
    equal strings, or equal numbers, whatever their types ([True], [1] and
    [1.0] are one key).  [hkey] is the normal form of a key under that
    equivalence: a number with an integral value is that integer.  The decoder
    hands out one shared object for [NaN], which a dict finds by identity, so
    [NaN] is one key as well. *)
Inductive hkey : Type :=
| KNone
| KStr (s : string)
| KInt (n : Z)
| KFloat (x : spec_float).

(** The integer a binary64 number is equal to, if any. *)
Definition integral (x : spec_float) : option Z :=
  match x with
  | S754_zero _ => Some 0
  | S754_finite neg m e =>
      if 0 <=? e then Some ((if neg then -1 else 1) * (Zpos m * 2 ^ e))
      else if Zpos m mod 2 ^ (- e) =? 0 then Some ((if neg then -1 else 1) * (Zpos m / 2 ^ (- e)))
      else None
  | _ => None
  end.

(** The key a value is, or [None] for an unhashable one (a list or a dict). *)
Definition key_of (v : value) : option hkey :=
  match v with
  | VNone => Some KNone
  | VBool b => Some (KInt (if b then 1 else 0))
  | VInt n => Some (KInt n)
  | VFloat x =>
      match integral (Prim2SF x) with
      | Some n => Some (KInt n)
      | None => Some (KFloat (Prim2SF x))
      end
  | VStr s => Some (KStr s)
  | VList _ => None
  | VDict _ => None
  end.

Definition spec_float_eqb (x y : spec_float) : bool :=
  match x, y with
  | S754_zero a, S754_zero b => Bool.eqb a b
  | S754_infinity a, S754_infinity b => Bool.eqb a b
  | S754_nan, S754_nan => true
  | S754_finite a m e, S754_finite b n f => Bool.eqb a b && (m =? n)%positive && (e =? f)
  | _, _ => false
  end.

Definition hkey_eqb (k l : hkey) : bool :=
  match k, l with
  | KNone, KNone => true
  | KStr s, KStr t => String.eqb s t
  | KInt m, KInt n => m =? n
  | KFloat x, KFloat y => spec_float_eqb x y
  | _, _ => false
  end.

(** A counting dict: the key objects as first inserted, in insertion order,
    each with its count. *)
Definition counts : Type := list (value * Z).

Definition is_key (k : hkey) (v : value) : bool :=
  match key_of v with
  | Some l => hkey_eqb k l
  | None => false
  end.

(** [products.get(key, default)]. *)
Fixpoint counts_get (k : hkey) (products : counts) (default : Z) : Z :=
  match products with
  | [] => default
  | (p, n) :: rest => if is_key k p then n else counts_get k rest default
  end.

(** [products[key] = n]: an existing key keeps its place and its first
    object; a new one goes last. *)
Fixpoint counts_set (k : hkey) (key : value) (n : Z) (products : counts) : counts :=
  match products with
  | [] => [(key, n)]
  | (p, c) :: rest =>
      if is_key k p then (p, n) :: rest else (p, c) :: counts_set k key n rest
  end.

(** [max(items, key=lambda x: x[1])] from a running best: a later item wins
    only with a strictly greater count. *)
Fixpoint max_count (best : value * Z) (items : counts) : value * Z :=
  match items with
  | [] => best
  | item :: rest => max_count (if snd best <? snd item then item else best) rest
  end.

(** *** Rendering a response body *)

(** [json.dumps(content, allow_nan=False)], which Starlette's [JSONResponse]
    calls, refuses a float that is infinite or not a number. *)
Fixpoint finite_floats (v : value) : bool :=
  match v with
  | VFloat x => is_finite x
  | VList items => forallb finite_floats items
  | VDict entries => forallb (fun kv : string * value => finite_floats (snd kv)) entries
  | _ => true
  end.

Record http_response : Type := {
  resp_status : Z;
  resp_content : value
}.

Definition JSONResponse (code : Z) (content : value) : result http_response :=
  if finite_floats content then Ok {| resp_status := code; resp_content := content |}
  else Exc (ValueError "Out of range float values are not JSON compliant").

(** ** The proxy *)

Section Proxy.

(** Three facts of the libraries that the source relies on and does not fix:
    the reason phrase [http.HTTPStatus(code).phrase] of a status code the table
    knows; [str(exc)] of an [HTTPException]; and the text an f-string gives an
    arbitrary object. *)
Variable http_phrase : Z -> option string.
Variable str_http_exception : Z -> value -> string.
Variable format : value -> string.

(** [str(e)]. *)
Definition str (e : exn) : string :=
  match e with
  | HTTPException code detail => str_http_exception code detail
  | PyError _ message => message
  end.

(** [raise HTTPException(status_code=code, detail=detail)].  The constructor
    replaces a [None] detail by the reason phrase of the code, and fails with a
    [ValueError] when the code has none. *)
Definition raise_HTTPException {A} (code : Z) (detail : value) : M A :=
  match detail with
  | VNone =>
      match http_phrase code with
      | Some phrase => raise (HTTPException code (VStr phrase))
      | None => raise (ValueError (str_int code ++ " is not a valid HTTPStatus"))
      end
  | _ => raise (HTTPException code detail)
  end.

(** proxy.py, lines 33-77. *)
Definition make_oracle_request (net : network) (method url : string) (data : value) : M value :=
  try_except
    (response <- requests_request net method url data (Some 30)
                   [("Content-Type", "application/json"); ("Accept", "application/json")] ;;
     logger_info (method ++ " " ++ url ++ " - Status: " ++ str_int (status_code response)) ;;;
     if status_code response =? 200 then
       lift (json response)
     else if status_code response =? 201 then
       body <- lift (json response) ;;
       ret (VDict [("success", VBool true); ("data", body)])
     else if status_code response =? 404 then
       raise_HTTPException 404 (VStr "Record not found")
     else
       error_message <-
         try_except
           (error_data <- lift (json response) ;;
            lift (get error_data "message"
                    (VStr ("Oracle API error: " ++ str_int (status_code response)))))
           (fun _ => ret (VStr ("Oracle API returned status " ++ str_int (status_code response)))) ;;
       raise_HTTPException (status_code response) error_message)
    (fun e =>
       if isinstance e ReqTimeout then
         raise_HTTPException 504 (VStr "Oracle database timeout")
       else if isinstance e ReqConnectionError then
         raise_HTTPException 503 (VStr "Cannot connect to Oracle database")
       else if isinstance e RequestException then
         logger_error ("Request error: " ++ str e) ;;;
         raise_HTTPException 500 (VStr "Internal server error")
       else raise e).

(** [requests.get(TIME_URL).json()["datetime"]], the expression both derived
    views evaluate for their time field. *)
Definition current_time (net : network) : M value :=
  response <- requests_get net TIME_URL None ;;
  body <- lift (json response) ;;
  lift (getitem body "datetime").

(** proxy.py, lines 80-93. *)
Definition health_check (net : network) : M value :=
  oracle_status <-
    try_except
      (response <- requests_get net ORACLE_URL (Some 10) ;;
       ret (if status_code response =? 200 then "connected" else "error"))
      (fun _ => ret "disconnected") ;;
  timestamp <- current_time net ;;
  ret (VDict [("status", VStr "healthy");
              ("oracle_connection", VStr oracle_status);
              ("timestamp", timestamp)]).

(** proxy.py, lines 96-133: the five routes that forward.  [request_json] is
    what [await request.json()] gives for the inbound body. *)
Definition read_data (net : network) : M value :=
  logger_info "Fetching all records from Oracle" ;;;
  make_oracle_request net "GET" ORACLE_URL VNone.

Definition create_data (net : network) (request_json : result value) : M value :=
  body <- lift request_json ;;
  customer_name <- lift (get body "customer_name" (VStr "Unknown")) ;;
  logger_info ("Creating new record: " ++ format customer_name) ;;;
  make_oracle_request net "POST" ORACLE_URL body.

Definition read_record (net : network) (record_id : string) : M value :=
  logger_info ("Fetching record ID: " ++ record_id) ;;;
  make_oracle_request net "GET" (ORACLE_URL ++ record_id) VNone.

Definition update_data (net : network) (record_id : string) (request_json : result value) : M value :=
  body <- lift request_json ;;
  logger_info ("Updating record ID: " ++ record_id) ;;;
  make_oracle_request net "PUT" (ORACLE_URL ++ record_id) body.

Definition delete_data (net : network) (record_id : string) : M value :=
  logger_info ("Deleting record ID: " ++ record_id) ;;;
  make_oracle_request net "DELETE" (ORACLE_URL ++ record_id) VNone.

(** proxy.py, lines 141-155: the statistics over [records]. *)
Definition pending_orders (records : value) : result Z :=
  rs <~ iter records ;;
  pending <~ filter_r (fun r => status <~ get r "status" VNone ;; Ok (eq_str status "Pending")) rs ;;
  Ok (Z.of_nat (List.length pending)).

Definition total_revenue (records : value) : result value :=
  rs <~ iter records ;;
  amounts <~ map_r (fun r => amount <~ get r "total_amount" (VInt 0) ;; float_ amount) rs ;;
  Ok (sum_ amounts).

(** One turn of the loop of lines 150-153. *)
Definition count_product (products : counts) (record : value) : result counts :=
  product <~ get record "product_name" VNone ;;
  if truthy product then
    match key_of product with
    | Some k => Ok (counts_set k product (counts_get k products 0 + 1) products)
    | None => Exc (TypeError ("unhashable type: '" ++ type_name product ++ "'"))
    end
  else Ok products.

Definition count_products (records : value) : result counts :=
  rs <~ iter records ;;
  fold_r count_product rs [].

Definition top_product (products : counts) : value :=
  match products with
  | [] => VStr "None"
  | first :: rest => fst (max_count first rest)
  end.

(** proxy.py, lines 137-172. *)
Definition get_summary_stats (net : network) : M value :=
  try_except
    (data <- make_oracle_request net "GET" ORACLE_URL VNone ;;
     records <- lift (get data "items" (VList [])) ;;
     total_records <- lift (len records) ;;
     pending <- lift (pending_orders records) ;;
     revenue <- lift (total_revenue records) ;;
     products <- lift (count_products records) ;;
     last_updated <- current_time net ;;
     ret (VDict [("total_records", VInt total_records);
                 ("pending_orders", VInt pending);
                 ("total_revenue", revenue);
                 ("top_product", top_product products);
                 ("last_updated", last_updated)]))
    (fun e =>
       logger_error ("Stats calculation error: " ++ str e) ;;;
       ret (VDict [("total_records", VInt 0);
                   ("pending_orders", VInt 0);
                   ("total_revenue", VInt 0);
                   ("top_product", VStr "Error");
                   ("error", VStr (str e))])).

(** proxy.py, lines 175-188: the two exception handlers. *)
Definition http_exception_handler (exc_status_code : Z) (exc_detail : value) : M http_response :=
  lift (JSONResponse exc_status_code
          (VDict [("error", exc_detail); ("status_code", VInt exc_status_code)])).

Definition general_exception_handler (exc : exn) : M http_response :=
  logger_error ("Unhandled exception: " ++ str exc) ;;;
  lift (JSONResponse 500
          (VDict [("error", VStr "Internal server error"); ("details", VStr (str exc))])).

(** What FastAPI does with a route: the value an endpoint returns is rendered
    with status 200; an [HTTPException] goes to the handler registered for it
    (line 175), any other exception, also one raised while rendering, to the
    handler registered for [Exception] (line 182). *)
Definition serve (endpoint : M value) : M http_response :=
  try_except
    (try_except
       (content <- endpoint ;; lift (JSONResponse 200 content))
       (fun exc =>
          match exc with
          | HTTPException code detail => http_exception_handler code detail
          | _ => raise exc
          end))
    general_exception_handler.

(** ** The terms of the specification *)

(** The outbound call [make_oracle_request method url data] issues. *)
Definition oracle_call (method url : string) (data : value) : request :=
  {| req_method := method; req_url := url; req_json := data; req_timeout := Some 30;
     req_headers := [("Content-Type", "application/json"); ("Accept", "application/json")] |}.

(** The outbound call [requests.get(url, timeout=...)] issues. *)
Definition get_call (url : string) (timeout : option Z) : request :=
  {| req_method := "get"; req_url := url; req_json := VNone; req_timeout := timeout;
     req_headers := [] |}.

(** The line logged once the upstream has answered (line 52). *)
Definition status_line (method url : string) (code : Z) : log_line :=
  (INFO, method ++ " " ++ url ++ " - Status: " ++ str_int code).

(** The line logged for an exception of the requests library that is neither
    a timeout nor a connection failure (line 76). *)
Definition cause_line (cause : string) : log_line := (ERROR, "Request error: " ++ cause).

(** The error envelope of [http_exception_handler]. *)
Definition error_envelope (code : Z) (detail : value) : http_response :=
  {| resp_status := code;
     resp_content := VDict [("error", detail); ("status_code", VInt code)] |}.

(** The catch-all envelope of [general_exception_handler]. *)
Definition catch_all_envelope (details : string) : http_response :=
  {| resp_status := 500;
     resp_content := VDict [("error", VStr "Internal server error"); ("details", VStr details)] |}.

(** The [except] clauses of lines 71-77, as [make_oracle_request] applies them
    to an exception leaving its [try] block. *)
Definition on_exception (e : exn) : M value :=
  if isinstance e ReqTimeout then
    raise_HTTPException 504 (VStr "Oracle database timeout")
  else if isinstance e ReqConnectionError then
    raise_HTTPException 503 (VStr "Cannot connect to Oracle database")
  else if isinstance e RequestException then
    logger_error ("Request error: " ++ str e) ;;;
    raise_HTTPException 500 (VStr "Internal server error")
  else raise e.

(** The part of the [try] block that follows the log line (lines 55-69). *)
Definition map_status (response : response) : M value :=
  if status_code response =? 200 then
    lift (json response)
  else if status_code response =? 201 then
    body <- lift (json response) ;;
    ret (VDict [("success", VBool true); ("data", body)])
  else if status_code response =? 404 then
    raise_HTTPException 404 (VStr "Record not found")
  else
    error_message <-
      try_except
        (error_data <- lift (json response) ;;
         lift (get error_data "message"
                 (VStr ("Oracle API error: " ++ str_int (status_code response)))))
        (fun _ => ret (VStr ("Oracle API returned status " ++ str_int (status_code response)))) ;;
    raise_HTTPException (status_code response) error_message.

(** The message of a relayed upstream error as the specification states it:
    the [message] field when the body is JSON and has one; "Oracle API
    error" when it is JSON without the field; "Oracle API returned status"
    when decoding throws. *)
Definition stated_error_message (r : response) : value :=
  match json r with
  | Ok (VDict entries) =>
      match lookup "message" entries with
      | Some m => m
      | None => VStr ("Oracle API error: " ++ str_int (status_code r))
      end
  | Ok _ => VStr ("Oracle API error: " ++ str_int (status_code r))
  | Exc _ => VStr ("Oracle API returned status " ++ str_int (status_code r))
  end.

(** Whether [response.json()] gives a JSON object (a dict). *)
Definition decodes_to_object (r : response) : bool :=
  match json r with
  | Ok (VDict _) => true
  | _ => false
  end.

(** The body [health_check] returns. *)
Definition health_report (oracle_status : string) (timestamp : value) : value :=
  VDict [("status", VStr "healthy");
         ("oracle_connection", VStr oracle_status);
         ("timestamp", timestamp)].

(** The [try] block of [get_summary_stats] (lines 140-163). *)
Definition summary_body (net : network) : M value :=
  data <- make_oracle_request net "GET" ORACLE_URL VNone ;;
  records <- lift (get data "items" (VList [])) ;;
  total_records <- lift (len records) ;;
  pending <- lift (pending_orders records) ;;
  revenue <- lift (total_revenue records) ;;
  products <- lift (count_products records) ;;
  last_updated <- current_time net ;;
  ret (VDict [("total_records", VInt total_records);
              ("pending_orders", VInt pending);
              ("total_revenue", revenue);
              ("top_product", top_product products);
              ("last_updated", last_updated)]).

(** The body returned when the statistics are computed. *)
Definition summary (total pending : Z) (revenue top last_updated : value) : value :=
  VDict [("total_records", VInt total);
         ("pending_orders", VInt pending);
         ("total_revenue", revenue);
         ("top_product", top);
         ("last_updated", last_updated)].

(** The body returned when they are not (lines 166-172). *)
Definition degraded (message : string) : value :=
  VDict [("total_records", VInt 0);
         ("pending_orders", VInt 0);
         ("total_revenue", VInt 0);
         ("top_product", VStr "Error");
         ("error", VStr message)].

(** The statistics as the specification words them, over items that are
    records (JSON objects). *)
Definition is_record (item : value) : bool :=
  match item with
  | VDict _ => true
  | _ => false
  end.

Definition field (name : string) (item : value) : option value :=
  match item with
  | VDict entries => lookup name entries
  | _ => None
  end.

(** An item counts as pending when it has a [status] equal to "Pending". *)
Definition is_pending (item : value) : bool :=
  match field "status" item with
  | Some (VStr s) => String.eqb s "Pending"
  | _ => false
  end.

(** An item's [total_amount] coerced to a number, a missing one being 0. *)
Definition amount (item : value) : result float :=
  match field "total_amount" item with
  | Some v => float_ v
  | None => float_ (VInt 0)
  end.

(** The upstream answers the listing with status 200 and a JSON object whose
    [items] are the list [items]; an object without [items] has none. *)
Definition upstream_items (net : network) (items : list value) : Prop :=
  exists r body,
    net (oracle_call "GET" ORACLE_URL VNone) = Responds r /\
    status_code r = 200 /\
    json r = Ok body /\
    get body "items" (VList []) = Ok (VList items).

(** The three items of the specification's example. *)
Definition example_items : list value :=
  [VDict [("status", VStr "Pending"); ("total_amount", VStr "10.5"); ("product_name", VStr "A")];
   VDict [("status", VStr "Done"); ("total_amount", VStr "5"); ("product_name", VStr "A")];
   VDict [("product_name", VStr "B")]].

(** The product name of an item that has a non-empty one. *)
Definition product_name (item : value) : option value :=
  match field "product_name" item with
  | Some v => if truthy v then Some v else None
  | None => None
  end.

(** The product names of the items, in the order of the items. *)
Fixpoint product_names (items : list value) : list value :=
  match items with
  | [] => []
  | item :: rest =>
      match product_name item with
      | Some v => v :: product_names rest
      | None => product_names rest
      end
  end.

(** An item whose product name, where it has a non-empty one, can be the key
    of a dict (is no list and no dict). *)
Definition hashable_name (item : value) : bool :=
  match product_name item with
  | Some v => match key_of v with Some _ => true | None => false end
  | None => true
  end.

(** Two values name the same product when they are the same dict key. *)
Definition same_product (v w : value) : bool :=
  match key_of v, key_of w with
  | Some k, Some l => hkey_eqb k l
  | _, _ => false
  end.

(** How often a product occurs among the names. *)
Definition occurrences (v : value) (names : list value) : Z :=
  Z.of_nat (List.length (filter (same_product v) names)).

(** What the loop of lines 150-153 maintains between the names met so far
    and the counting dict: the keys are distinct; each is counted as often as
    it occurs; every name has its key; and a key is preceded, among the
    names, only by names of the keys that precede it in the dict. *)
Definition tallies (names : list value) (T : counts) : Prop :=
  NoDup (map key_of (map fst T)) /\
  (forall p c, In (p, c) T -> key_of p <> None /\ c = occurrences p names) /\
  (forall w, In w names -> exists p, In p (map fst T) /\ same_product w p = true) /\
  (forall K1 p K2, map fst T = (K1 ++ p :: K2)%list ->
     exists before after,
       names = (before ++ p :: after)%list /\
       forall w, In w before -> exists q, In q K1 /\ same_product w q = true).

(** An outcome the libraries can produce: neither [requests] nor the decoder
    of a response raises FastAPI's [HTTPException]. *)
Definition library_outcome (o : outcome) : bool :=
  match o with
  | Responds r =>
      match json r with
      | Exc (HTTPException _ _) => false
      | _ => true
      end
  | Throws (HTTPException _ _) => false
  | Throws _ => true
  end.

(** What rendering raises on a float that JSON cannot carry. *)
Definition render_error : exn :=
  ValueError "Out of range float values are not JSON compliant".

(** The line [general_exception_handler] logs (line 184). *)
Definition unhandled_line (details : string) : log_line :=
  (ERROR, "Unhandled exception: " ++ details).

(** The upstream answers the listing with status 200 and a JSON object whose
    [items], or the empty list in their absence, are [records]. *)
Definition upstream_records (net : network) (records : value) : Prop :=
  exists r body,
    net (oracle_call "GET" ORACLE_URL VNone) = Responds r /\
    status_code r = 200 /\
    json r = Ok body /\
    get body "items" (VList []) = Ok records.

(** Lines 144-163 of the [try] block, over the records and the outcome of
    the time lookup. *)
Definition statistics (records : value) (time : result value) : result value :=
  total_records <~ len records ;;
  pending <~ pending_orders records ;;
  revenue <~ total_revenue records ;;
  products <~ count_products records ;;
  last_updated <~ time ;;
  Ok (summary total_records pending revenue (top_product products) last_updated).

(** The line logged when the statistics degrade (line 165). *)
Definition stats_error_line (message : string) : log_line :=
  (ERROR, "Stats calculation error: " ++ message).

(** The sum of the counts of a counting dict. *)
Definition total_count (products : counts) : Z :=
  fold_right (fun entry acc => snd entry + acc) 0 products.

(** ** Sample data for the worked examples *)

(** A runtime for the examples: the reason phrases of the standard library
    for the codes met below, Starlette's text of an [HTTPException]
    ("{status_code}: {detail}") and the text of the simple values. *)
Definition sample_phrase (code : Z) : option string :=
  if code =? 404 then Some "Not Found"
  else if code =? 500 then Some "Internal Server Error"
  else if code =? 503 then Some "Service Unavailable"
  else if code =? 504 then Some "Gateway Timeout"
  else None.

Definition sample_format (v : value) : string :=
  match v with
  | VStr s => s
  | VInt n => str_int n
  | VNone => "None"
  | VBool true => "True"
  | VBool false => "False"
  | _ => "..."
  end.

Definition sample_text (code : Z) (detail : value) : string :=
  str_int code ++ ": " ++ sample_format detail.

(** An upstream that answers every call alike, one that fails every call
    alike, and one that tells the listing from the time service. *)
Definition answers (code : Z) (decoded : result value) : network :=
  fun _ => Responds {| status_code := code; json := decoded |}.

Definition fails (e : exn) : network := fun _ => Throws e.

Definition upstream (listing clock : outcome) : network :=
  fun call => if String.eqb (req_url call) TIME_URL then clock else listing.

Definition ok_json (body : value) : outcome :=
  Responds {| status_code := 200; json := Ok body |}.

Definition sample_clock : outcome :=
  ok_json (VDict [("datetime", VStr "2025-01-01T12:00:00+03:00")]).

(** Exceptions of the requests library, by the classes they are instances of. *)
Definition read_timeout : exn :=
  PyError [OtherClass "ReadTimeout"; ReqTimeout; RequestException] "Read timed out.".

Definition connect_timeout : exn :=
  PyError [OtherClass "ConnectTimeout"; ReqConnectionError; ReqTimeout; RequestException]
    "Connection timed out.".

Definition connection_refused : exn :=
  PyError [ReqConnectionError; RequestException] "Connection refused".

Definition too_many_redirects : exn :=
  PyError [OtherClass "TooManyRedirects"; RequestException] "Exceeded 30 redirects.".

(** What [response.json()] raises on a body that is not JSON: since requests
    2.27 an exception of the library's own; before, the decoder's [ValueError]. *)
Definition requests_json_error : exn :=
  PyError [OtherClass "JSONDecodeError"; OtherClass "InvalidJSONError"; RequestException;
           OtherClass "ValueError"]
    "Expecting value: line 1 column 1 (char 0)".

Definition plain_json_error : exn :=
  PyError [OtherClass "JSONDecodeError"; OtherClass "ValueError"]
    "Expecting value: line 1 column 1 (char 0)".

(** Items whose two products tie with two occurrences each, "A" being met
    first; the last item has an empty name. *)
Definition tied_items : list value :=
  [VDict [("product_name", VStr "A")];
   VDict [("product_name", VStr "B")];
   VDict [("product_name", VStr "B"); ("status", VStr "Pending")];
   VDict [("product_name", VStr "A")];
   VDict [("product_name", VStr "")]].

(** Two records, one pending, one amount a number and one a string. *)
Definition priced_items : list value :=
  [VDict [("status", VStr "Pending"); ("total_amount", VFloat 0.5)];
   VDict [("total_amount", VStr "0.25"); ("product_name", VStr "X")]].

(** The two priced records and a third whose amount is no number. *)
Definition mispriced_items : list value :=
  (priced_items ++ [VDict [("status", VStr "Pending"); ("total_amount", VStr "n/a")]])%list.

(** A record followed by a number. *)
Definition stray_items : list value :=
  [VDict [("status", VStr "Pending")]; VInt 3; VDict []].

(** One record whose product name is a list. *)
Definition listed_name_items : list value :=
  [VDict [("status", VStr "Pending"); ("product_name", VList [VStr "A"; VStr "B"])]].

(** A listing with one amount that reads as infinity. *)
Definition infinite_amount : value :=
  VDict [("items", VList [VDict [("total_amount", VStr "inf")]])].

(** ** Properties of the forwarding operation *)

(** [get] on a dict. *)
Lemma get_record (entries : list (string * value)) (key : string) (default : value) :
  get (VDict entries) key default
  = Ok (match lookup key entries with Some v => v | None => default end).
Proof. simpl. destruct (lookup key entries); reflexivity. Qed.

(** When the outbound call raises, nothing but the [except] clauses runs. *)
Lemma make_oracle_request_throws (net : network) (method url : string) (data : value)
  (e : exn) (log : list log_line) :
  net (oracle_call method url data) = Throws e ->
  make_oracle_request net method url data log = on_exception e log.
Proof.
  intros Hnet.
  unfold make_oracle_request, try_except, bind, requests_request.
  fold (oracle_call method url data). rewrite Hnet. reflexivity.
Qed.

(** When the upstream answers, the status line is logged first, then the
    status is mapped under the [except] clauses. *)
Lemma make_oracle_request_responds (net : network) (method url : string) (data : value)
  (r : response) (log : list log_line) :
  net (oracle_call method url data) = Responds r ->
  make_oracle_request net method url data log =
  try_except (map_status r) on_exception (log ++ [status_line method url (status_code r)])%list.
Proof.
  intros Hnet.
  unfold make_oracle_request, try_except, bind, requests_request.
  fold (oracle_call method url data). rewrite Hnet. reflexivity.
Qed.

(** C1. For every verb, URL and body: when the upstream answers 200 and its
    body decodes to [body], the forwarding operation returns [body] itself;
    when it answers 201, it returns [{"success": True, "data": body}]. *)
Theorem success_is_relayed (net : network) (method url : string) (data : value)
  (r : response) (body : value) (log : list log_line) :
  net (oracle_call method url data) = Responds r ->
  json r = Ok body ->
  (status_code r = 200 ->
   fst (make_oracle_request net method url data log) = Ok body) /\
  (status_code r = 201 ->
   fst (make_oracle_request net method url data log)
   = Ok (VDict [("success", VBool true); ("data", body)])).
Proof.
  intros Hnet Hjson.
  rewrite (make_oracle_request_responds _ _ _ _ _ _ Hnet).
  unfold try_except, map_status, bind, lift, ret.
  split; intros Hcode; rewrite Hcode, Hjson; reflexivity.
Qed.

(** C2. For every verb, URL and body: when the upstream answers 404, the
    client receives status 404 with the body
    [{"error": "Record not found", "status_code": 404}]. *)
Theorem not_found_envelope (net : network) (method url : string) (data : value)
  (r : response) (log : list log_line) :
  net (oracle_call method url data) = Responds r ->
  status_code r = 404 ->
  fst (serve (make_oracle_request net method url data) log)
  = Ok (error_envelope 404 (VStr "Record not found")).
Proof.
  intros Hnet Hcode.
  unfold serve, try_except, bind.
  rewrite (make_oracle_request_responds _ _ _ _ _ _ Hnet).
  unfold try_except, map_status. rewrite Hcode. reflexivity.
Qed.

(** C4. For every verb, URL and body, an exception raised by the outbound call
    is mapped by its kind, the kinds being tried in the order of the [except]
    clauses: a timeout (a connection attempt that timed out included) fails
    with 504 "Oracle database timeout"; a connection failure that is no
    timeout fails with 503 "Cannot connect to Oracle database"; any other
    exception of the requests library fails with 500 "Internal server error". *)
Theorem transport_faults_by_kind (net : network) (method url : string) (data : value)
  (e : exn) (log : list log_line) :
  net (oracle_call method url data) = Throws e ->
  (isinstance e ReqTimeout = true ->
   fst (make_oracle_request net method url data log)
   = Exc (HTTPException 504 (VStr "Oracle database timeout"))) /\
  (isinstance e ReqTimeout = false ->
   isinstance e ReqConnectionError = true ->
   fst (make_oracle_request net method url data log)
   = Exc (HTTPException 503 (VStr "Cannot connect to Oracle database"))) /\
  (isinstance e ReqTimeout = false ->
   isinstance e ReqConnectionError = false ->
   isinstance e RequestException = true ->
   fst (make_oracle_request net method url data log)
   = Exc (HTTPException 500 (VStr "Internal server error"))).
Proof.
  intros Hnet.
  rewrite (make_oracle_request_throws _ _ _ _ _ _ Hnet).
  unfold on_exception.
  repeat split.
  - intros ->. reflexivity.
  - intros -> ->. reflexivity.
  - intros -> -> ->. reflexivity.
Qed.

(** [map_status] writes nothing to the log. *)
Lemma map_status_log (r : response) (log : list log_line) :
  snd (map_status r log) = log.
Proof.
  unfold map_status, try_except, bind, lift, ret, raise_HTTPException, raise.
  destruct (status_code r =? 200); [reflexivity|].
  destruct (status_code r =? 201); [destruct (json r); reflexivity|].
  destruct (status_code r =? 404); [reflexivity|].
  destruct (json r) as [v|e]; simpl.
  - destruct (get v "message" _) as [m|e]; simpl.
    + destruct m; try reflexivity. destruct (http_phrase _); reflexivity.
    + reflexivity.
  - reflexivity.
Qed.

(** C3, as the code has it.  For an upstream status other than 200, 201 and
    404 the forwarding operation fails, and by the body of the answer: with
    the upstream status and the [message] field itself when the body decodes
    to a JSON object that has one, not null; with the upstream status and its
    reason phrase when the [message] is null and the status has a reason
    phrase; with a [ValueError], which the client receives as the catch-all
    answer with status 500, when the [message] is null and the status has no
    reason phrase; with the upstream status and "Oracle API error: {status}"
    when the body decodes to an object without the field; with the upstream
    status and "Oracle API returned status {status}" when decoding throws or
    gives anything but an object. *)
Theorem upstream_error_message (net : network) (method url : string) (data : value)
  (r : response) (log : list log_line) :
  net (oracle_call method url data) = Responds r ->
  status_code r <> 200 -> status_code r <> 201 -> status_code r <> 404 ->
  (forall entries m,
      json r = Ok (VDict entries) -> lookup "message" entries = Some m -> m <> VNone ->
      fst (make_oracle_request net method url data log)
      = Exc (HTTPException (status_code r) m)) /\
  (forall entries phrase,
      json r = Ok (VDict entries) -> lookup "message" entries = Some VNone ->
      http_phrase (status_code r) = Some phrase ->
      fst (make_oracle_request net method url data log)
      = Exc (HTTPException (status_code r) (VStr phrase))) /\
  (forall entries,
      json r = Ok (VDict entries) -> lookup "message" entries = Some VNone ->
      http_phrase (status_code r) = None ->
      fst (make_oracle_request net method url data log)
      = Exc (ValueError (str_int (status_code r) ++ " is not a valid HTTPStatus")) /\
      fst (serve (make_oracle_request net method url data) log)
      = Ok (catch_all_envelope (str_int (status_code r) ++ " is not a valid HTTPStatus"))) /\
  (forall entries,
      json r = Ok (VDict entries) -> lookup "message" entries = None ->
      fst (make_oracle_request net method url data log)
      = Exc (HTTPException (status_code r)
               (VStr ("Oracle API error: " ++ str_int (status_code r))))) /\
  (decodes_to_object r = false ->
   fst (make_oracle_request net method url data log)
   = Exc (HTTPException (status_code r)
            (VStr ("Oracle API returned status " ++ str_int (status_code r))))).
Proof.
  intros Hnet H200 H201 H404.
  unfold serve, try_except at 1 2, bind.
  rewrite (make_oracle_request_responds _ _ _ _ _ _ Hnet).
  apply Z.eqb_neq in H200, H201, H404.
  unfold try_except, map_status, bind, lift, ret. rewrite H200, H201, H404.
  split; [|split; [|split; [|split]]].
  - intros entries m Hjson Hm Hnone. rewrite Hjson. simpl. rewrite Hm.
    destruct m; try reflexivity. contradiction.
  - intros entries phrase Hjson Hm Hphrase. rewrite Hjson. simpl. rewrite Hm.
    unfold raise_HTTPException. rewrite Hphrase. reflexivity.
  - intros entries Hjson Hm Hphrase. rewrite Hjson. simpl. rewrite Hm.
    unfold raise_HTTPException. rewrite Hphrase. split; reflexivity.
  - intros entries Hjson Hm. rewrite Hjson. simpl. rewrite Hm. reflexivity.
  - unfold decodes_to_object. intros Hobj.
    destruct (json r) as [v|e]; [destruct v; try discriminate|]; reflexivity.
Qed.

(** What an exception leaving the [try] block adds to the log: nothing, or,
    for an exception of the requests library that is neither a timeout nor
    a connection failure, one error line. *)
Lemma on_exception_log (e : exn) (log : list log_line) :
  snd (on_exception e log) =
  if negb (isinstance e ReqTimeout) && negb (isinstance e ReqConnectionError)
     && isinstance e RequestException
  then (log ++ [cause_line (str e)])%list
  else log.
Proof.
  unfold on_exception.
  destruct (isinstance e ReqTimeout); [reflexivity|].
  destruct (isinstance e ReqConnectionError); [reflexivity|].
  destruct (isinstance e RequestException); reflexivity.
Qed.

(** An exception leaves [map_status] only as the exception [json()] raised
    on a 200 or a 201, as an [HTTPException], or as the [ValueError] of an
    unknown status code. *)
Lemma map_status_raises (r : response) (e : exn) (log : list log_line) :
  fst (map_status r log) = Exc e ->
  (json r = Exc e /\ (status_code r = 200 \/ status_code r = 201)) \/
  isinstance e RequestException = false.
Proof.
  unfold map_status, try_except, bind, lift, ret, raise_HTTPException, raise.
  destruct (status_code r =? 200) eqn:H200.
  { apply Z.eqb_eq in H200. simpl. intros ->. left. split; [reflexivity|now left]. }
  destruct (status_code r =? 201) eqn:H201.
  { apply Z.eqb_eq in H201. destruct (json r); simpl; [discriminate|].
    intros [= ->]. left. split; [reflexivity|now right]. }
  destruct (status_code r =? 404).
  { simpl. intros [= <-]. now right. }
  destruct (json r) as [v|e']; simpl.
  - destruct (get v "message" _) as [m|e'']; simpl.
    + destruct m; simpl; try (intros [= <-]; now right).
      destruct (http_phrase _); simpl; intros [= <-]; now right.
    + intros [= <-]; now right.
  - intros [= <-]; now right.
Qed.

(** C9, as the code has it.  An invocation whose outbound call is answered
    logs first the line "{method} {url} - Status: {status}".  It logs one more
    line, "Request error: {cause}", when the status is 200 or 201 and
    decoding the body raises an exception of the requests library that is
    neither a timeout nor a connection failure; in every other case of an
    answered call the status line is the only one.  An invocation whose
    outbound call raises logs nothing on a timeout, on a connection failure
    and on an exception that is not of the requests library, and the one
    line "Request error: {cause}" on any other exception of that library. *)
Theorem forwarding_log (net : network) (method url : string) (data : value)
  (log : list log_line) :
  (forall r, net (oracle_call method url data) = Responds r ->
     (forall e,
         status_code r = 200 \/ status_code r = 201 ->
         json r = Exc e ->
         isinstance e ReqTimeout = false -> isinstance e ReqConnectionError = false ->
         isinstance e RequestException = true ->
         snd (make_oracle_request net method url data log)
         = (log ++ [status_line method url (status_code r); cause_line (str e)])%list) /\
     ((status_code r <> 200 /\ status_code r <> 201) \/
      (exists v, json r = Ok v) \/
      (exists e, json r = Exc e /\
                 (isinstance e ReqTimeout = true \/ isinstance e ReqConnectionError = true
                  \/ isinstance e RequestException = false)) ->
      snd (make_oracle_request net method url data log)
      = (log ++ [status_line method url (status_code r)])%list)) /\
  (forall e, net (oracle_call method url data) = Throws e ->
     (isinstance e ReqTimeout = true \/ isinstance e ReqConnectionError = true
      \/ isinstance e RequestException = false ->
      snd (make_oracle_request net method url data log) = log) /\
     (isinstance e ReqTimeout = false -> isinstance e ReqConnectionError = false ->
      isinstance e RequestException = true ->
      snd (make_oracle_request net method url data log)
      = (log ++ [cause_line (str e)])%list)).
Proof.
  split.
  - intros r Hnet.
    rewrite (make_oracle_request_responds _ _ _ _ _ _ Hnet).
    unfold try_except.
    pose proof (map_status_log r (log ++ [status_line method url (status_code r)])%list) as Hlog.
    pose proof (map_status_raises r) as Hraise.
    split.
    + intros e Hcode Hjson Htimeout Hconn Hreq.
      assert (Hrun : fst (map_status r (log ++ [status_line method url (status_code r)])%list)
                     = Exc e).
      { unfold map_status, bind, lift.
        destruct Hcode as [Hcode|Hcode]; rewrite Hcode, Hjson; reflexivity. }
      destruct (map_status r _) as [res log'] eqn:Hmap. cbn [fst snd] in Hlog, Hrun.
      subst res log'. rewrite on_exception_log, Htimeout, Hconn, Hreq. cbn [negb andb].
      now rewrite <- app_assoc.
    + intros Hcase.
      destruct (map_status r _) as [[v|e] log'] eqn:Hrun; cbn [fst snd] in Hlog; subst log'.
      * reflexivity.
      * rewrite on_exception_log.
        specialize (Hraise e _ (f_equal fst Hrun)).
        destruct Hraise as [[Hjson Hcode]|Hnot].
        -- destruct Hcase as [[H200 H201] | [(v & Hv) | (e' & He' & Hkind)]].
           ++ destruct Hcode; contradiction.
           ++ congruence.
           ++ assert (e' = e) as -> by congruence.
              destruct Hkind as [-> | [-> | ->]]; cbn [negb andb];
                rewrite ?andb_false_r; reflexivity.
        -- rewrite Hnot, andb_false_r. reflexivity.
  - intros e Hnet.
    rewrite (make_oracle_request_throws _ _ _ _ _ _ Hnet), on_exception_log.
    split.
    + intros [-> | [-> | ->]]; simpl; rewrite ?andb_false_r; reflexivity.
    + intros -> -> ->. reflexivity.
Qed.

(** C10, as the code has it.  When the upstream answers 200 with a body that
    does not decode, what the client receives depends on the class of the
    exception the decoder raises.  If it is not an exception of the requests
    library, it leaves the forwarding operation as it is and the client
    receives the catch-all envelope with status 500.  If it is one (and is
    neither a timeout nor a connection failure), the forwarding operation
    turns it into the 500 "Internal server error" failure and the client
    receives the [{error, status_code}] envelope. *)
Theorem undecodable_success_body (net : network) (method url : string) (data : value)
  (r : response) (classes : list pyclass) (message : string) (log : list log_line) :
  net (oracle_call method url data) = Responds r ->
  status_code r = 200 ->
  json r = Exc (PyError classes message) ->
  isinstance (PyError classes message) ReqTimeout = false ->
  isinstance (PyError classes message) ReqConnectionError = false ->
  (isinstance (PyError classes message) RequestException = false ->
   fst (make_oracle_request net method url data log) = Exc (PyError classes message) /\
   fst (serve (make_oracle_request net method url data) log)
   = Ok (catch_all_envelope message)) /\
  (isinstance (PyError classes message) RequestException = true ->
   fst (make_oracle_request net method url data log)
   = Exc (HTTPException 500 (VStr "Internal server error")) /\
   fst (serve (make_oracle_request net method url data) log)
   = Ok (error_envelope 500 (VStr "Internal server error"))).
Proof.
  intros Hnet Hcode Hjson Htimeout Hconn.
  unfold serve, try_except, bind.
  rewrite (make_oracle_request_responds _ _ _ _ _ _ Hnet).
  unfold try_except, map_status, lift. rewrite Hcode, Hjson. simpl fst. simpl snd.
  unfold on_exception. rewrite Htimeout, Hconn.
  split; intros ->; split; reflexivity.
Qed.

(** The five routes hand their verb, URL and body to the forwarding
    operation, after one log line of their own; a record id is appended to
    the base URL as it is. *)
Lemma routes_forward (net : network) (record_id : string) (body : value)
  (log : list log_line) :
  read_data net log
  = make_oracle_request net "GET" ORACLE_URL VNone
      (log ++ [(INFO, "Fetching all records from Oracle")])%list /\
  read_record net record_id log
  = make_oracle_request net "GET" (ORACLE_URL ++ record_id) VNone
      (log ++ [(INFO, ("Fetching record ID: " ++ record_id)%string)])%list /\
  update_data net record_id (Ok body) log
  = make_oracle_request net "PUT" (ORACLE_URL ++ record_id) body
      (log ++ [(INFO, ("Updating record ID: " ++ record_id)%string)])%list /\
  delete_data net record_id log
  = make_oracle_request net "DELETE" (ORACLE_URL ++ record_id) VNone
      (log ++ [(INFO, ("Deleting record ID: " ++ record_id)%string)])%list /\
  (forall entries,
      body = VDict entries ->
      create_data net (Ok body) log
      = make_oracle_request net "POST" ORACLE_URL body
          (log ++ [(INFO, ("Creating new record: "
                           ++ format (match lookup "customer_name" entries with
                                      | Some name => name
                                      | None => VStr "Unknown"
                                      end))%string)])%list).
Proof.
  repeat split.
  intros entries ->. unfold create_data, bind, lift. rewrite get_record. reflexivity.
Qed.

(** Every request is answered: where a body cannot be rendered the
    catch-all handler takes over, and its own body always can. *)
Lemma serve_answers (endpoint : M value) (log : list log_line) :
  exists answer, fst (serve endpoint log) = Ok answer.
Proof.
  unfold serve, try_except, bind, lift, http_exception_handler, general_exception_handler,
    logger_error, JSONResponse.
  destruct (endpoint log) as [[content|exc] log'].
  - destruct (finite_floats content); eexists; reflexivity.
  - destruct exc as [code detail|classes message].
    + destruct (finite_floats (VDict [("error", detail); ("status_code", VInt code)]));
        eexists; reflexivity.
    + eexists; reflexivity.
Qed.

(** ** The health check *)

(** The time lookup reads no state and writes none. *)
Lemma current_time_run (net : network) (log : list log_line) :
  current_time net log = (fst (current_time net []), log).
Proof.
  unfold current_time, bind, requests_get, requests_request, lift, ret, raise.
  destruct (net _) as [r|e]; [|reflexivity].
  destruct (json r) as [body|e]; reflexivity.
Qed.

(** C8.  When the time lookup gives [t], the health check reports
    "connected" if the upstream answers its probe with status 200, "error" if
    it answers with any other status, and "disconnected" if the probe raises.
    When the time lookup raises, no handler of [health_check] catches the
    exception: it leaves the endpoint, and the client is answered by the
    catch-all handler. *)
Theorem health_check_report (net : network) (log : list log_line) :
  (forall t, fst (current_time net []) = Ok t ->
     (forall r, net (get_call ORACLE_URL (Some 10)) = Responds r -> status_code r = 200 ->
        fst (health_check net log) = Ok (health_report "connected" t)) /\
     (forall r, net (get_call ORACLE_URL (Some 10)) = Responds r -> status_code r <> 200 ->
        fst (health_check net log) = Ok (health_report "error" t)) /\
     (forall e, net (get_call ORACLE_URL (Some 10)) = Throws e ->
        fst (health_check net log) = Ok (health_report "disconnected" t))) /\
  (forall e, fst (current_time net []) = Exc e ->
     fst (health_check net log) = Exc e) /\
  (forall classes message, fst (current_time net []) = Exc (PyError classes message) ->
     fst (serve (health_check net) log) = Ok (catch_all_envelope message)).
Proof.
  unfold serve, health_check, try_except, bind, requests_get, requests_request, ret, raise.
  fold (get_call ORACLE_URL (Some 10)).
  split; [intros t Ht; split; [|split] | split].
  - intros r -> ->. simpl. rewrite current_time_run, Ht. reflexivity.
  - intros r -> Hcode. apply Z.eqb_neq in Hcode. rewrite Hcode.
    rewrite current_time_run, Ht. reflexivity.
  - intros e ->. rewrite current_time_run, Ht. reflexivity.
  - intros e He. destruct (net _) as [r|e']; rewrite current_time_run, He; reflexivity.
  - intros classes message He.
    destruct (net _) as [r|e']; rewrite current_time_run, He; reflexivity.
Qed.

(** ** Summary statistics *)

Lemma get_summary_stats_unfold (net : network) :
  get_summary_stats net =
  try_except (summary_body net)
    (fun e => logger_error ("Stats calculation error: " ++ str e) ;;; ret (degraded (str e))).
Proof. reflexivity. Qed.

(** Whatever exception leaves the [try] block, the endpoint returns the
    degraded body carrying its text. *)
Lemma get_summary_stats_degraded (net : network) (log : list log_line) (e : exn) :
  fst (summary_body net log) = Exc e ->
  fst (get_summary_stats net log) = Ok (degraded (str e)).
Proof.
  intros Hbody. rewrite get_summary_stats_unfold. unfold try_except.
  destruct (summary_body net log) as [[v|e'] log']; simpl in Hbody; [discriminate|].
  injection Hbody as ->. reflexivity.
Qed.

(** The endpoint function itself never raises. *)
Lemma get_summary_stats_returns (net : network) (log : list log_line) :
  exists v, fst (get_summary_stats net log) = Ok v.
Proof.
  rewrite get_summary_stats_unfold. unfold try_except.
  destruct (summary_body net log) as [[v|e] log'].
  - exists v. reflexivity.
  - exists (degraded (str e)). reflexivity.
Qed.

(** The degraded body is rendered with status 200. *)
Lemma degraded_is_served (net : network) (log : list log_line) (e : exn) :
  fst (summary_body net log) = Exc e ->
  fst (serve (get_summary_stats net) log)
  = Ok {| resp_status := 200; resp_content := degraded (str e) |}.
Proof.
  intros Hbody. unfold serve, try_except, bind.
  rewrite get_summary_stats_unfold. unfold try_except.
  destruct (summary_body net log) as [[v|e'] log']; simpl in Hbody; [discriminate|].
  injection Hbody as ->. reflexivity.
Qed.

(** The comprehension of line 145 keeps the pending items. *)
Lemma pending_orders_counts (items : list value) :
  Forall (fun item => is_record item = true) items ->
  pending_orders (VList items) = Ok (Z.of_nat (List.length (filter is_pending items))).
Proof.
  intros Hrec. unfold pending_orders. simpl iter. unfold rbind at 1.
  assert (Hfilter :
    filter_r (fun r => status <~ get r "status" VNone ;; Ok (eq_str status "Pending")) items
    = Ok (filter is_pending items)).
  { induction Hrec as [|item rest Hitem _ IH]; [reflexivity|].
    destruct item as [| | | | | |entries]; try discriminate.
    cbn [filter_r filter]. rewrite get_record, IH. unfold rbind.
    replace (is_pending (VDict entries))
      with (eq_str (match lookup "status" entries with Some v => v | None => VNone end) "Pending").
    - reflexivity.
    - unfold is_pending, field, eq_str.
      destruct (lookup "status" entries) as [[]|]; reflexivity. }
  rewrite Hfilter. reflexivity.
Qed.

(** The generator of line 146 coerces each amount in turn. *)
Lemma total_revenue_sums (items : list value) (amounts : list float) :
  Forall (fun item => is_record item = true) items ->
  Forall2 (fun item x => amount item = Ok x) items amounts ->
  total_revenue (VList items) = Ok (sum_ amounts).
Proof.
  intros Hrec Hamounts. unfold total_revenue. simpl iter. unfold rbind at 1.
  assert (Hmap :
    map_r (fun r => amount <~ get r "total_amount" (VInt 0) ;; float_ amount) items
    = Ok amounts).
  { induction Hamounts as [|item x rest xs Hx _ IH]; [reflexivity|].
    inversion Hrec as [|? ? Hitem Hrest]; subst.
    destruct item as [| | | | | |entries]; try discriminate.
    cbn [map_r]. rewrite get_record, (IH Hrest).
    unfold amount, field in Hx. unfold rbind at 2.
    destruct (lookup "total_amount" entries); unfold rbind; rewrite Hx; reflexivity. }
  rewrite Hmap. reflexivity.
Qed.

(** The statistics of the [try] block, once the listing and the time are there. *)
Lemma summary_body_computes (net : network) (log : list log_line)
  (items : list value) (amounts : list float) (products : counts) (t : value) :
  upstream_items net items ->
  Forall (fun item => is_record item = true) items ->
  Forall2 (fun item x => amount item = Ok x) items amounts ->
  count_products (VList items) = Ok products ->
  fst (current_time net []) = Ok t ->
  fst (summary_body net log)
  = Ok (summary (Z.of_nat (List.length items))
          (Z.of_nat (List.length (filter is_pending items)))
          (sum_ amounts) (top_product products) t).
Proof.
  intros (r & body & Hnet & Hcode & Hjson & Hitems) Hrec Hamounts Hproducts Htime.
  unfold summary_body, bind.
  rewrite (make_oracle_request_responds _ _ _ _ _ _ Hnet).
  unfold try_except, map_status, lift. rewrite Hcode, Hjson. cbn [Z.eqb Pos.eqb].
  rewrite Hitems. cbn [len].
  rewrite (pending_orders_counts _ Hrec), (total_revenue_sums _ _ Hrec Hamounts), Hproducts.
  rewrite current_time_run, Htime. reflexivity.
Qed.

(** The loop of lines 150-153 raises nothing over records whose product
    names can be keys. *)
Lemma count_products_hashable (items : list value) (T0 : counts) :
  Forall (fun item => is_record item = true) items ->
  Forall (fun item => hashable_name item = true) items ->
  exists T, fold_r count_product items T0 = Ok T.
Proof.
  intros Hrec. revert T0. induction Hrec as [|item rest Hitem _ IH]; intros T0 Hhash.
  - now exists T0.
  - inversion Hhash as [|? ? Hname Hrest]; subst.
    destruct item as [| | | | | |entries]; try discriminate.
    cbn [fold_r]. unfold count_product. rewrite get_record. cbn [rbind].
    unfold hashable_name, product_name, field in Hname.
    destruct (lookup "product_name" entries) as [v|].
    + destruct (truthy v).
      * destruct (key_of v) as [k|]; [|discriminate]. cbn [rbind]. apply IH, Hrest.
      * cbn [rbind]. apply IH, Hrest.
    + cbn [truthy rbind]. apply IH, Hrest.
Qed.

(** C6, as the code has it.  With the time lookup giving [t]: for every list
    of items the upstream returns (an absent [items] being the empty list),
    each a record whose [total_amount] coerces to a number and whose product
    name, if it has one, can be a dict key, [total_records] is the length of
    the list, [pending_orders] the number of items whose [status] is
    "Pending", and [total_revenue] the sum of the coerced amounts.  On the
    three items of the example the result is 3, 1, 15.5 and "A"; on no items
    it is 0, 0, 0 and "None". *)
Theorem summary_statistics (net : network) (log : list log_line) (t : value) :
  fst (current_time net []) = Ok t ->
  (forall items amounts,
      upstream_items net items ->
      Forall (fun item => is_record item = true) items ->
      Forall2 (fun item x => amount item = Ok x) items amounts ->
      Forall (fun item => hashable_name item = true) items ->
      exists products,
        count_products (VList items) = Ok products /\
        fst (get_summary_stats net log)
        = Ok (summary (Z.of_nat (List.length items))
                (Z.of_nat (List.length (filter is_pending items)))
                (sum_ amounts) (top_product products) t)) /\
  (upstream_items net example_items ->
   fst (get_summary_stats net log) = Ok (summary 3 1 (VFloat 15.5) (VStr "A") t)) /\
  (upstream_items net [] ->
   fst (get_summary_stats net log) = Ok (summary 0 0 (VInt 0) (VStr "None") t)).
Proof.
  intros Htime.
  assert (Hgeneral : forall items amounts products,
      upstream_items net items ->
      Forall (fun item => is_record item = true) items ->
      Forall2 (fun item x => amount item = Ok x) items amounts ->
      count_products (VList items) = Ok products ->
      fst (get_summary_stats net log)
      = Ok (summary (Z.of_nat (List.length items))
              (Z.of_nat (List.length (filter is_pending items)))
              (sum_ amounts) (top_product products) t)).
  { intros items amounts products Hup Hrec Hamounts Hproducts.
    pose proof (summary_body_computes net log items amounts products t
                  Hup Hrec Hamounts Hproducts Htime) as Hbody.
    rewrite get_summary_stats_unfold. unfold try_except.
    destruct (summary_body net log) as [[v|e] log']; simpl in Hbody; [|discriminate].
    exact Hbody. }
  split; [|split].
  - intros items amounts Hup Hrec Hamounts Hhash.
    destruct (count_products_hashable items [] Hrec Hhash) as (products & Hproducts).
    exists products. split; [exact Hproducts|].
    now apply Hgeneral.
  - intros Hup.
    rewrite (Hgeneral example_items [10.5; 5; 0]%float
               [(VStr "A", 2); (VStr "B", 1)] Hup).
    + reflexivity.
    + repeat constructor.
    + repeat constructor.
    + reflexivity.
  - intros Hup.
    rewrite (Hgeneral [] [] [] Hup); [reflexivity|constructor|constructor|reflexivity].
Qed.

(** ** The most frequent product *)

Lemma spec_float_eqb_eq (x y : spec_float) : spec_float_eqb x y = true <-> x = y.
Proof.
  destruct x as [a|a| |a m e], y as [b|b| |b n f]; simpl;
    try (split; [discriminate|intros [=]]); try tauto.
  - rewrite Bool.eqb_true_iff. split; [now intros ->|now intros [= ->]].
  - rewrite Bool.eqb_true_iff. split; [now intros ->|now intros [= ->]].
  - rewrite !andb_true_iff, Bool.eqb_true_iff, Pos.eqb_eq, Z.eqb_eq.
    split; [now intros [[-> ->] ->]|now intros [= -> -> ->]].
Qed.

Lemma hkey_eqb_eq (k l : hkey) : hkey_eqb k l = true <-> k = l.
Proof.
  destruct k, l; simpl; try (split; [discriminate|intros [=]]); try tauto.
  - rewrite String.eqb_eq. split; [now intros ->|now intros [= ->]].
  - rewrite Z.eqb_eq. split; [now intros ->|now intros [= ->]].
  - rewrite spec_float_eqb_eq. split; [now intros ->|now intros [= ->]].
Qed.

Lemma is_key_iff (k : hkey) (v : value) : is_key k v = true <-> key_of v = Some k.
Proof.
  unfold is_key. destruct (key_of v) as [l|].
  - rewrite hkey_eqb_eq. split; [now intros ->|now intros [= ->]].
  - split; discriminate.
Qed.

Lemma same_product_iff (v w : value) :
  same_product v w = true <-> exists k, key_of v = Some k /\ key_of w = Some k.
Proof.
  unfold same_product. destruct (key_of v) as [k|], (key_of w) as [l|].
  - rewrite hkey_eqb_eq. split.
    + intros ->. now exists l.
    + intros (m & [= ->] & [= ->]). reflexivity.
  - split; [discriminate|]. intros (m & _ & H). discriminate.
  - split; [discriminate|]. intros (m & H & _). discriminate.
  - split; [discriminate|]. intros (m & H & _). discriminate.
Qed.

Lemma same_product_key (v w : value) (k : hkey) :
  key_of v = Some k -> same_product v w = is_key k w.
Proof. unfold same_product, is_key. now intros ->. Qed.

(** Products that are the same key occur equally often. *)
Lemma occurrences_key (v : value) (k : hkey) (names : list value) :
  key_of v = Some k ->
  occurrences v names = Z.of_nat (List.length (filter (is_key k) names)).
Proof.
  intros Hk. unfold occurrences. f_equal. f_equal.
  apply filter_ext. intros w. now apply same_product_key.
Qed.

Lemma occurrences_same (v w : value) (names : list value) :
  same_product v w = true -> occurrences v names = occurrences w names.
Proof.
  intros H. apply same_product_iff in H as (k & Hv & Hw).
  now rewrite (occurrences_key v k), (occurrences_key w k).
Qed.

Lemma occurrences_snoc (v w : value) (names : list value) :
  occurrences v (names ++ [w]) = occurrences v names + (if same_product v w then 1 else 0).
Proof.
  unfold occurrences. rewrite filter_app, length_app. cbn [filter].
  destruct (same_product v w); cbn [List.length]; lia.
Qed.

(** The two ways [products[key] = n] goes: the key is there, at its first
    and only place, or it is not and goes last. *)
Lemma counts_step (k : hkey) (key : value) (n default : Z) (T : counts) :
  (exists T1 p c T2,
      T = (T1 ++ (p, c) :: T2)%list /\ is_key k p = true /\
      (forall e, In e T1 -> is_key k (fst e) = false) /\
      counts_get k T default = c /\
      counts_set k key n T = (T1 ++ (p, n) :: T2)%list) \/
  ((forall e, In e T -> is_key k (fst e) = false) /\
   counts_get k T default = default /\
   counts_set k key n T = (T ++ [(key, n)])%list).
Proof.
  induction T as [|[p c] T IH].
  - right. repeat split. intros e [].
  - cbn [counts_get counts_set]. destruct (is_key k p) eqn:Hp.
    + left. exists [], p, c, T. repeat split; [exact Hp|]. intros e [].
    + destruct IH as [(T1 & q & d & T2 & -> & Hq & Hnot & Hget & Hset) | (Hnot & Hget & Hset)].
      * left. exists ((p, c) :: T1), q, d, T2. rewrite Hset. repeat split; try assumption.
        intros e [<-|He]; [exact Hp|now apply Hnot].
      * right. rewrite Hset. repeat split; try assumption.
        intros e [<-|He]; [exact Hp|now apply Hnot].
Qed.

(** [max] returns the first item of greatest count: the items before it have
    smaller counts, the items after it none greater. *)
Lemma max_count_first (items : counts) (best : value * Z) :
  exists L1 L2,
    best :: items = (L1 ++ max_count best items :: L2)%list /\
    (forall e, In e L1 -> snd e < snd (max_count best items)) /\
    (forall e, In e L2 -> snd e <= snd (max_count best items)).
Proof.
  revert best. induction items as [|item rest IH]; intros best.
  - exists [], []. repeat split; intros e [].
  - cbn [max_count]. destruct (snd best <? snd item) eqn:Hlt.
    + apply Z.ltb_lt in Hlt.
      destruct (IH item) as (L1 & L2 & Heq & Hbefore & Hafter).
      exists (best :: L1), L2. rewrite Heq. repeat split; [|exact Hafter].
      intros e [<-|He]; [|now apply Hbefore].
      destruct L1 as [|x L1].
      * injection Heq as <- _. exact Hlt.
      * injection Heq as <- _. specialize (Hbefore item (or_introl eq_refl)). lia.
    + apply Z.ltb_ge in Hlt.
      destruct (IH best) as (L1 & L2 & Heq & Hbefore & Hafter).
      destruct L1 as [|x L1].
      * injection Heq as Hbest Hrest. exists [], (item :: rest). rewrite <- Hbest.
        repeat split; [intros e []|].
        intros e [<-|He]; [exact Hlt|]. rewrite Hbest. apply Hafter. now rewrite <- Hrest.
      * injection Heq as Hx Hrest. subst x. exists (best :: item :: L1), L2.
        split; [cbn [app]; do 2 f_equal; exact Hrest|]. split; [|exact Hafter].
        intros e [<-|[<-|He]].
        -- apply Hbefore. now left.
        -- specialize (Hbefore best (or_introl eq_refl)). lia.
        -- apply Hbefore. now right.
Qed.

Lemma tallies_nil : tallies [] [].
Proof.
  split; [constructor|]. split; [intros p c []|]. split; [intros w []|].
  intros K1 p K2 H. destruct K1; discriminate.
Qed.

Lemma occurrences_none (v : value) (names : list value) :
  (forall w, In w names -> same_product v w = false) -> occurrences v names = 0.
Proof.
  intros Hnone. unfold occurrences.
  induction names as [|w names IH]; [reflexivity|].
  cbn [filter]. rewrite (Hnone w (or_introl eq_refl)).
  apply IH. intros x Hx. apply Hnone. now right.
Qed.

Lemma not_same_product (k : hkey) (q v : value) :
  key_of v = Some k -> is_key k q = false -> same_product q v = false.
Proof.
  intros Hv Hq. destruct (same_product q v) eqn:Hsame; [|reflexivity].
  apply same_product_iff in Hsame as (m & Hqm & Hvm).
  rewrite Hv in Hvm. injection Hvm as <-.
  apply is_key_iff in Hqm. congruence.
Qed.

(** One more name keeps the relation. *)
Lemma tallies_step (names : list value) (T : counts) (v : value) (k : hkey) :
  tallies names T ->
  key_of v = Some k ->
  tallies (names ++ [v]) (counts_set k v (counts_get k T 0 + 1) T).
Proof.
  intros (Hnodup & Hcount & Hcover & Horder) Hv.
  assert (Hvv : same_product v v = true) by (apply same_product_iff; now exists k).
  destruct (counts_step k v (counts_get k T 0 + 1) 0 T)
    as [(T1 & p & c & T2 & HT & Hp & Hnot & Hget & Hset) | (Hnot & Hget & Hset)].
  - (* the key is there: its count goes up by one *)
    rewrite Hset, Hget.
    assert (Hfst : map fst (T1 ++ (p, c + 1) :: T2) = map fst T).
    { rewrite HT, !map_app. reflexivity. }
    assert (Hpk : key_of p = Some k) by now apply is_key_iff.
    assert (Hpv : same_product p v = true) by (apply same_product_iff; now exists k).
    split; [now rewrite Hfst|]. split; [|split].
    + intros q d Hin.
      assert (Hq : (q, d) = (p, c + 1) \/ (In (q, d) T /\ is_key k q = false)).
      { apply in_app_or in Hin as [Hin|[Hin|Hin]].
        - right. split; [rewrite HT; apply in_or_app; now left|].
          exact (Hnot _ Hin).
        - left. now symmetry.
        - right. split; [rewrite HT; apply in_or_app; right; now right|].
          destruct (is_key k q) eqn:Hqk; [|reflexivity].
          apply is_key_iff in Hqk. exfalso.
          rewrite HT, !map_app in Hnodup. cbn [map fst] in Hnodup.
          apply NoDup_remove_2 in Hnodup. apply Hnodup, in_or_app. right.
          rewrite Hpk, <- Hqk. apply in_map, (in_map fst _ _ Hin). }
      destruct Hq as [[= -> ->] | [HinT Hqk]].
      * assert (HpT : In (p, c) T) by (rewrite HT; apply in_or_app; right; now left).
        destruct (Hcount p c HpT) as [Hhash Hc].
        split; [exact Hhash|]. rewrite occurrences_snoc, Hpv. lia.
      * destruct (Hcount q d HinT) as [Hhash Hd].
        split; [exact Hhash|].
        rewrite occurrences_snoc, (not_same_product k q v Hv Hqk). lia.
    + rewrite Hfst. intros w Hw. apply in_app_or in Hw as [Hw|[<-|[]]].
      * now apply Hcover.
      * exists p. split; [|apply same_product_iff; now exists k].
        rewrite HT, map_app. apply in_or_app. right. now left.
    + rewrite Hfst. intros K1 q K2 HK.
      destruct (Horder K1 q K2 HK) as (before & after & -> & Hbefore).
      exists before, (after ++ [v])%list. split; [|exact Hbefore].
      now rewrite <- app_assoc.
  - (* the key is new: it goes last, with count one *)
    rewrite Hset, Hget.
    assert (Hfst : map fst (T ++ [(v, 0 + 1)]) = (map fst T ++ [v])%list).
    { now rewrite map_app. }
    assert (Hfresh : forall q, In q (map fst T) -> is_key k q = false).
    { intros q Hq. apply in_map_iff in Hq as (e & <- & He). exact (Hnot e He). }
    unfold tallies. rewrite Hfst. split; [|split; [|split]].
    + rewrite map_app. apply NoDup_app; [exact Hnodup|repeat constructor; intros []|].
      intros a Ha [<-|[]]. rewrite Hv in Ha.
      apply in_map_iff in Ha as (q & Hqk & Hq).
      apply is_key_iff in Hqk. rewrite (Hfresh q Hq) in Hqk. discriminate.
    + intros q d Hin. apply in_app_or in Hin as [Hin|[[= <- <-]|[]]].
      * destruct (Hcount q d Hin) as [Hhash Hd].
        split; [exact Hhash|].
        rewrite occurrences_snoc, (not_same_product k q v Hv (Hnot _ Hin)). lia.
      * split; [congruence|].
        rewrite occurrences_snoc, Hvv, occurrences_none; [reflexivity|].
        intros w Hw. destruct (same_product v w) eqn:Hvw; [|reflexivity].
        destruct (Hcover w Hw) as (q & Hq & Hwq).
        apply same_product_iff in Hvw as (m & Hvm & Hwm).
        apply same_product_iff in Hwq as (n & Hwn & Hqn).
        assert (Hqk : is_key k q = true) by (apply is_key_iff; congruence).
        rewrite (Hfresh q Hq) in Hqk. discriminate.
    + intros w Hw. apply in_app_or in Hw as [Hw|[<-|[]]].
      * destruct (Hcover w Hw) as (q & Hq & Hwq).
        exists q. split; [apply in_or_app; now left|exact Hwq].
      * exists v. split; [apply in_or_app; right; now left|exact Hvv].
    + intros K1 q K2 HK.
      destruct K2 as [|x K2 _] using rev_ind.
      * apply app_inj_tail in HK as [<- <-].
        exists names, []. split; [reflexivity|]. exact Hcover.
      * rewrite app_comm_cons, app_assoc in HK.
        apply app_inj_tail in HK as [HK <-].
        destruct (Horder K1 q K2 HK) as (before & after & -> & Hbefore).
        exists before, (after ++ [v])%list. split; [|exact Hbefore].
        now rewrite <- app_assoc.
Qed.

(** A turn of the loop leaves the dict alone, for an item without a product
    name, or counts the name. *)
Lemma count_product_cases (T T' : counts) (item : value) :
  count_product T item = Ok T' ->
  (product_name item = None /\ T' = T) \/
  (exists v k, product_name item = Some v /\ key_of v = Some k /\
               T' = counts_set k v (counts_get k T 0 + 1) T).
Proof.
  unfold count_product, product_name.
  destruct item as [| | | | | |entries]; try discriminate.
  rewrite get_record. cbn [rbind field].
  destruct (lookup "product_name" entries) as [v|]; cbn [truthy].
  - destruct (truthy v).
    + destruct (key_of v) as [k|] eqn:Hk; [|discriminate].
      intros [= <-]. right. now exists v, k.
    + intros [= <-]. now left.
  - intros [= <-]. now left.
Qed.

Lemma fold_tallies (items : list value) (names : list value) (T0 T : counts) :
  tallies names T0 ->
  fold_r count_product items T0 = Ok T ->
  tallies (names ++ product_names items) T.
Proof.
  revert names T0. induction items as [|item rest IH]; intros names T0 Hinv.
  - cbn. intros [= <-]. now rewrite app_nil_r.
  - cbn [fold_r product_names]. unfold rbind.
    destruct (count_product T0 item) as [T1|e] eqn:Hstep; [|discriminate].
    intros Hfold.
    apply count_product_cases in Hstep as [[-> ->] | (v & k & -> & Hk & ->)].
    + now apply IH with (T0 := T0).
    + replace (names ++ v :: product_names rest)%list
        with ((names ++ [v]) ++ product_names rest)%list
        by now rewrite <- app_assoc.
      eapply IH; [|exact Hfold]. now apply tallies_step.
Qed.

(** C7.  When the loop over the items completes, [top_product] is "None" if
    no item has a non-empty product name.  Otherwise it is one of the product
    names; no product occurs more often; and every name met before it in the
    list occurs less often: of the products with the highest count it is the
    one that comes first in the order of the items. *)
Theorem top_product_most_frequent (items : list value) (products : counts) :
  count_products (VList items) = Ok products ->
  (product_names items = [] -> top_product products = VStr "None") /\
  (product_names items <> [] ->
   exists before after,
     product_names items = (before ++ top_product products :: after)%list /\
     (forall w, In w (product_names items) ->
        occurrences w (product_names items)
        <= occurrences (top_product products) (product_names items)) /\
     (forall w, In w before ->
        occurrences w (product_names items)
        < occurrences (top_product products) (product_names items))).
Proof.
  unfold count_products. cbn [iter rbind]. intros Hfold.
  pose proof (fold_tallies items [] [] products tallies_nil Hfold) as Hinv.
  cbn [app] in Hinv. destruct Hinv as (Hnodup & Hcount & Hcover & Horder).
  split.
  - intros Hnone. rewrite Hnone in Horder.
    destruct products as [|[p c] rest]; [reflexivity|].
    destruct (Horder [] p (map fst rest) eq_refl) as (before & after & Habs & _).
    destruct before; discriminate.
  - intros Hsome.
    destruct products as [|first rest].
    { destruct (product_names items) as [|w ws]; [contradiction|].
      destruct (Hcover w (or_introl eq_refl)) as (p & [] & _). }
    cbn [top_product].
    destruct (max_count_first rest first) as (L1 & L2 & Hsplit & Hless & Hleq).
    set (best := max_count first rest) in *.
    assert (Hbest : In (fst best, snd best) (first :: rest)).
    { rewrite Hsplit. apply in_or_app. right. left. now destruct best. }
    destruct (Hcount _ _ Hbest) as [_ Hbc].
    destruct (Horder (map fst L1) (fst best) (map fst L2)) as (before & after & Hnames & Hbefore).
    { rewrite Hsplit, map_app. reflexivity. }
    exists before, after. split; [exact Hnames|]. split.
    + intros w Hw. destruct (Hcover w Hw) as (p & Hp & Hwp).
      apply in_map_iff in Hp as ([p' c] & Hfst & Hp). cbn in Hfst. subst p'.
      rewrite (occurrences_same w p _ Hwp), <- Hbc.
      destruct (Hcount p c Hp) as [_ <-].
      rewrite Hsplit in Hp. apply in_app_or in Hp as [Hp|[Hp|Hp]].
      * specialize (Hless _ Hp). cbn in Hless. lia.
      * rewrite Hp. cbn. lia.
      * exact (Hleq _ Hp).
    + intros w Hw. destruct (Hbefore w Hw) as (q & Hq & Hwq).
      apply in_map_iff in Hq as ([q' d] & Hfst & Hq). cbn in Hfst. subst q'.
      rewrite (occurrences_same w q _ Hwq), <- Hbc.
      assert (HqT : In (q, d) (first :: rest)).
      { rewrite Hsplit. apply in_or_app. now left. }
      destruct (Hcount q d HqT) as [_ <-].
      exact (Hless _ Hq).
Qed.

(** ** Further properties of the forwarding operation *)

(** The [except] clauses never return; what they raise is no exception of
    the requests library. *)
Lemma on_exception_raises (e : exn) (log : list log_line) :
  exists e', fst (on_exception e log) = Exc e' /\
             isinstance e' ReqTimeout = false /\
             isinstance e' ReqConnectionError = false /\
             isinstance e' RequestException = false.
Proof.
  unfold on_exception.
  destruct (isinstance e ReqTimeout) eqn:Ht; [eexists; repeat split|].
  destruct (isinstance e ReqConnectionError) eqn:Hc; [eexists; repeat split|].
  destruct (isinstance e RequestException) eqn:Hr; [eexists; repeat split|].
  exists e. repeat split; assumption.
Qed.

Lemma on_exception_result (e : exn) (log : list log_line) :
  fst (on_exception e log) = fst (on_exception e []).
Proof.
  unfold on_exception.
  destruct (isinstance e ReqTimeout); [reflexivity|].
  destruct (isinstance e ReqConnectionError); [reflexivity|].
  destruct (isinstance e RequestException); reflexivity.
Qed.

Lemma on_exception_http_failure (e : exn) (log : list log_line) (code : Z) (detail : value) :
  fst (on_exception e log) = Exc (HTTPException code detail) ->
  code = 500 \/ code = 503 \/ code = 504 \/ e = HTTPException code detail.
Proof using Type.
  clear format.
  unfold on_exception.
  destruct (isinstance e ReqTimeout); [intros [= <- _]; tauto|].
  destruct (isinstance e ReqConnectionError); [intros [= <- _]; tauto|].
  destruct (isinstance e RequestException); [intros [= <- _]; tauto|].
  intros [= ->]. tauto.
Qed.

Lemma map_status_run (r : response) (log : list log_line) :
  map_status r log = (fst (map_status r []), log).
Proof.
  unfold map_status, try_except, bind, lift, ret, raise_HTTPException, raise.
  destruct (status_code r =? 200); [reflexivity|].
  destruct (status_code r =? 201); [destruct (json r); reflexivity|].
  destruct (status_code r =? 404); [reflexivity|].
  destruct (json r) as [v|e]; simpl.
  - destruct (get v "message" _) as [m|e]; simpl.
    + destruct m; try reflexivity. destruct (http_phrase _); reflexivity.
    + reflexivity.
  - reflexivity.
Qed.

(** How [map_status] succeeds: on a 200 or a 201 whose body decodes. *)
Lemma map_status_success (r : response) (v : value) :
  fst (map_status r []) = Ok v ->
  exists body,
    json r = Ok body /\
    ((status_code r = 200 /\ v = body) \/
     (status_code r = 201 /\ v = VDict [("success", VBool true); ("data", body)])).
Proof.
  unfold map_status, try_except, bind, lift, ret, raise_HTTPException, raise.
  destruct (status_code r =? 200) eqn:H200.
  { apply Z.eqb_eq in H200. cbn [fst]. intros Hjson. exists v.
    split; [exact Hjson|]. left. now split. }
  destruct (status_code r =? 201) eqn:H201.
  { apply Z.eqb_eq in H201. destruct (json r) as [body|e]; cbn [fst]; [|discriminate].
    intros [= <-]. exists body. split; [reflexivity|]. right. now split. }
  destruct (status_code r =? 404); [discriminate|].
  destruct (json r) as [body|e]; cbn.
  - destruct (get body "message" _) as [m|e]; cbn; [|discriminate].
    destruct m; try discriminate. destruct (http_phrase _); discriminate.
  - discriminate.
Qed.

(** How [map_status] fails: with the exception the decoder raised on a 200 or
    a 201, with an [HTTPException] of the upstream status, which is then
    neither, or with the [ValueError] of a status without reason phrase. *)
Lemma map_status_failure (r : response) (e : exn) :
  fst (map_status r []) = Exc e ->
  (json r = Exc e /\ (status_code r = 200 \/ status_code r = 201)) \/
  (exists detail, e = HTTPException (status_code r) detail /\
                  status_code r <> 200 /\ status_code r <> 201) \/
  (exists message, e = ValueError message).
Proof.
  unfold map_status, try_except, bind, lift, ret, raise_HTTPException, raise.
  destruct (status_code r =? 200) eqn:H200.
  { apply Z.eqb_eq in H200. cbn [fst]. intros ->. left. split; [reflexivity|now left]. }
  destruct (status_code r =? 201) eqn:H201.
  { apply Z.eqb_eq in H201. destruct (json r); cbn [fst]; [discriminate|].
    intros [= ->]. left. split; [reflexivity|now right]. }
  apply Z.eqb_neq in H200, H201.
  assert (Hhttp : forall detail,
             (exists d, HTTPException (status_code r) detail = HTTPException (status_code r) d /\
                        status_code r <> 200 /\ status_code r <> 201)).
  { intros detail. exists detail. repeat split; assumption. }
  destruct (status_code r =? 404) eqn:H404.
  { apply Z.eqb_eq in H404. cbn [fst]. intros [= <-]. right; left.
    rewrite <- H404. apply Hhttp. }
  destruct (json r) as [v|e']; cbn.
  - destruct (get v "message" _) as [m|e'']; cbn.
    + destruct m; cbn; try (intros [= <-]; right; left; apply Hhttp).
      destruct (http_phrase _); cbn; intros [= <-].
      * right; left; apply Hhttp.
      * right; right. eexists. reflexivity.
    + intros [= <-]; right; left; apply Hhttp.
  - intros [= <-]; right; left; apply Hhttp.
Qed.

(** The result of the forwarding operation, by the outcome of its call. *)
Lemma make_oracle_request_fst (net : network) (method url : string) (data : value)
  (log : list log_line) :
  fst (make_oracle_request net method url data log)
  = match net (oracle_call method url data) with
    | Responds r =>
        match fst (map_status r []) with
        | Ok v => Ok v
        | Exc e => fst (on_exception e [])
        end
    | Throws e => fst (on_exception e [])
    end.
Proof.
  destruct (net (oracle_call method url data)) as [r|e] eqn:Hnet.
  - rewrite (make_oracle_request_responds _ _ _ _ _ _ Hnet). unfold try_except.
    rewrite map_status_run.
    destruct (fst (map_status r [])) as [v|e]; [reflexivity|].
    cbn [snd]. apply on_exception_result.
  - rewrite (make_oracle_request_throws _ _ _ _ _ _ Hnet). apply on_exception_result.
Qed.

(** It does not depend on the log the operation started from. *)
Lemma make_oracle_request_result (net : network) (method url : string) (data : value)
  (log log' : list log_line) :
  fst (make_oracle_request net method url data log)
  = fst (make_oracle_request net method url data log').
Proof. now rewrite !make_oracle_request_fst. Qed.

(** The statuses a failure of the forwarding operation can carry, in an
    environment that raises no [HTTPException] of its own. *)
Lemma forwarding_failure_status (net : network) (method url : string) (data : value)
  (log : list log_line) (code : Z) (detail : value) :
  library_outcome (net (oracle_call method url data)) = true ->
  fst (make_oracle_request net method url data log) = Exc (HTTPException code detail) ->
  code = 500 \/ code = 503 \/ code = 504 \/
  (exists r, net (oracle_call method url data) = Responds r /\
             code = status_code r /\ code <> 200 /\ code <> 201).
Proof using Type.
  clear format.
  intros Hlib. rewrite make_oracle_request_fst.
  destruct (net (oracle_call method url data)) as [r|e] eqn:Hnet.
  - destruct (fst (map_status r [])) as [w|e] eqn:Hmap; [discriminate|].
    intros Hraise.
    destruct (on_exception_http_failure _ _ _ _ Hraise) as [H|[H|[H| ->]]]; try tauto.
    destruct (map_status_failure r _ Hmap)
      as [[Hjson _] | [(d & [= Hcode _] & H200 & H201) | (message & [=])]].
    + cbn in Hlib. rewrite Hjson in Hlib. discriminate.
    + right; right; right. exists r. rewrite Hcode. repeat split; assumption.
  - intros Hraise.
    destruct (on_exception_http_failure _ _ _ _ Hraise) as [H|[H|[H| ->]]]; try tauto.
    discriminate.
Qed.

(** The forwarding operation returns a value only when the upstream answered
    200 or 201 with a body that decodes: the body itself on 200, the
    [{success, data}] wrapper on 201. *)
Theorem forwarding_returns_only_on_success (net : network) (method url : string)
  (data : value) (log : list log_line) (v : value) :
  fst (make_oracle_request net method url data log) = Ok v ->
  exists r body,
    net (oracle_call method url data) = Responds r /\
    json r = Ok body /\
    ((status_code r = 200 /\ v = body) \/
     (status_code r = 201 /\ v = VDict [("success", VBool true); ("data", body)])).
Proof.
  rewrite make_oracle_request_fst.
  destruct (net (oracle_call method url data)) as [r|e].
  - destruct (fst (map_status r [])) as [w|e] eqn:Hmap.
    + intros [= ->]. destruct (map_status_success r v Hmap) as (body & Hjson & Hcases).
      now exists r, body.
    + destruct (on_exception_raises e []) as (e' & -> & _). discriminate.
  - destruct (on_exception_raises e []) as (e' & -> & _). discriminate.
Qed.

(** No exception of the requests library leaves the forwarding operation:
    whatever it raises is no timeout, no connection error and no other
    request exception. *)
Theorem no_request_exception_escapes (net : network) (method url : string)
  (data : value) (log : list log_line) (e : exn) :
  fst (make_oracle_request net method url data log) = Exc e ->
  isinstance e ReqTimeout = false /\
  isinstance e ReqConnectionError = false /\
  isinstance e RequestException = false.
Proof.
  rewrite make_oracle_request_fst.
  destruct (net (oracle_call method url data)) as [r|e0].
  - destruct (fst (map_status r [])) as [w|e1]; [discriminate|].
    destruct (on_exception_raises e1 []) as (e' & -> & Hclasses). now intros [= <-].
  - destruct (on_exception_raises e0 []) as (e' & -> & Hclasses). now intros [= <-].
Qed.

(** When the message of an upstream error is null, the failure carries the
    reason phrase of the upstream status in its place; a status without a
    reason phrase makes the construction of the failure raise a [ValueError]
    instead. *)
Theorem null_message_takes_reason_phrase (net : network) (method url : string)
  (data : value) (r : response) (entries : list (string * value)) (log : list log_line) :
  net (oracle_call method url data) = Responds r ->
  status_code r <> 200 -> status_code r <> 201 -> status_code r <> 404 ->
  json r = Ok (VDict entries) ->
  lookup "message" entries = Some VNone ->
  (forall phrase, http_phrase (status_code r) = Some phrase ->
     fst (make_oracle_request net method url data log)
     = Exc (HTTPException (status_code r) (VStr phrase))) /\
  (http_phrase (status_code r) = None ->
   fst (make_oracle_request net method url data log)
   = Exc (ValueError (str_int (status_code r) ++ " is not a valid HTTPStatus"))).
Proof.
  intros Hnet H200 H201 H404 Hjson Hmessage.
  rewrite (make_oracle_request_responds _ _ _ _ _ _ Hnet).
  apply Z.eqb_neq in H200, H201, H404.
  unfold try_except, map_status, bind, lift, ret. rewrite H200, H201, H404, Hjson.
  cbn [fst snd get]. rewrite Hmessage. unfold raise_HTTPException.
  split.
  - intros phrase ->. reflexivity.
  - intros ->. reflexivity.
Qed.

(** ** The exception handlers and the routes *)

Lemma general_exception_handler_run (exc : exn) (log : list log_line) :
  general_exception_handler exc log
  = (Ok (catch_all_envelope (str exc)), (log ++ [unhandled_line (str exc)])%list).
Proof. reflexivity. Qed.

Lemma finite_envelope (code : Z) (detail : value) :
  finite_floats (VDict [("error", detail); ("status_code", VInt code)]) = finite_floats detail.
Proof. cbn. now rewrite andb_true_r. Qed.

(** What [serve] makes of the three ways an endpoint ends. *)
Lemma serve_run (endpoint : M value) (log : list log_line) :
  serve endpoint log
  = match endpoint log with
    | (Ok content, log') =>
        if finite_floats content
        then (Ok {| resp_status := 200; resp_content := content |}, log')
        else general_exception_handler render_error log'
    | (Exc (HTTPException code detail), log') =>
        if finite_floats detail
        then (Ok (error_envelope code detail), log')
        else general_exception_handler render_error log'
    | (Exc exc, log') => general_exception_handler exc log'
    end.
Proof.
  unfold serve, try_except, bind, lift, http_exception_handler, JSONResponse.
  destruct (endpoint log) as [[content|[code detail|classes message]] log'].
  - destruct (finite_floats content); reflexivity.
  - rewrite finite_envelope. destruct (finite_floats detail); reflexivity.
  - reflexivity.
Qed.

(** The answer depends on the endpoint's result alone. *)
Lemma serve_result (endpoint endpoint' : M value) (log log' : list log_line) :
  fst (endpoint log) = fst (endpoint' log') ->
  fst (serve endpoint log) = fst (serve endpoint' log').
Proof.
  rewrite !serve_run.
  destruct (endpoint log) as [res l], (endpoint' log') as [res' l']. cbn [fst].
  intros <-. destruct res as [content|[code detail|classes message]].
  - destruct (finite_floats content); reflexivity.
  - destruct (finite_floats detail); reflexivity.
  - reflexivity.
Qed.

(** An [HTTPException] leaving any endpoint is answered with its own status
    and the body [{error: detail, status_code}], and the handler logs
    nothing; but a detail that cannot be rendered (a float that is infinite
    or not a number) gets the catch-all answer with status 500. *)
Theorem http_exception_is_enveloped (endpoint : M value) (log log' : list log_line)
  (code : Z) (detail : value) :
  endpoint log = (Exc (HTTPException code detail), log') ->
  (finite_floats detail = true ->
   serve endpoint log = (Ok (error_envelope code detail), log')) /\
  (finite_floats detail = false ->
   serve endpoint log
   = (Ok (catch_all_envelope "Out of range float values are not JSON compliant"),
      (log' ++ [unhandled_line "Out of range float values are not JSON compliant"])%list)).
Proof.
  intros Hrun. rewrite serve_run, Hrun. split; intros ->; reflexivity.
Qed.

(** Any other exception leaving any endpoint is answered with status 500 and
    the body [{error: "Internal server error", details: str(exc)}], after one
    error line "Unhandled exception: ..." is logged. *)
Theorem unhandled_exception_is_logged (endpoint : M value) (log log' : list log_line)
  (classes : list pyclass) (message : string) :
  endpoint log = (Exc (PyError classes message), log') ->
  serve endpoint log
  = (Ok (catch_all_envelope message), (log' ++ [unhandled_line message])%list).
Proof.
  intros Hrun. rewrite serve_run, Hrun. reflexivity.
Qed.

(** A client of the forwarding operation that receives status 200 is
    assured that the upstream answered 200 or 201 with a body that decodes,
    and the body received is the upstream's (wrapped, on 201), in an
    environment that raises no [HTTPException] of its own. *)
Theorem ok_answer_means_upstream_success (net : network) (method url : string)
  (data : value) (log : list log_line) (answer : http_response) :
  library_outcome (net (oracle_call method url data)) = true ->
  fst (serve (make_oracle_request net method url data) log) = Ok answer ->
  resp_status answer = 200 ->
  exists r body,
    net (oracle_call method url data) = Responds r /\
    json r = Ok body /\
    ((status_code r = 200 /\ resp_content answer = body) \/
     (status_code r = 201 /\
      resp_content answer = VDict [("success", VBool true); ("data", body)])).
Proof using Type.
  clear format.
  intros Hlib. rewrite serve_run.
  pose proof (forwarding_failure_status net method url data log) as Hfail.
  pose proof (make_oracle_request_fst net method url data log) as Hfst.
  destruct (make_oracle_request net method url data log)
    as [[v|[code detail|classes message]] log'] eqn:Hrun; cbn [fst] in Hfail, Hfst |- *.
  - destruct (finite_floats v); [|cbn; intros [= <-]; discriminate].
    cbn. intros [= <-] _. cbn.
    destruct (net (oracle_call method url data)) as [r|e].
    + destruct (fst (map_status r [])) as [w|e] eqn:Hmap.
      * injection Hfst as ->.
        destruct (map_status_success r w Hmap) as (body & Hjson & Hcases).
        now exists r, body.
      * destruct (on_exception_raises e []) as (e' & He' & _). congruence.
    + destruct (on_exception_raises e []) as (e' & He' & _). congruence.
  - specialize (Hfail code detail Hlib eq_refl).
    destruct (finite_floats detail); cbn; intros [= <-]; cbn; [|discriminate].
    intros Hcode. exfalso.
    destruct Hfail as [H|[H|[H|(r & _ & _ & H & _)]]]; lia.
  - cbn. intros [= <-]. discriminate.
Qed.

(** The statuses a client of the forwarding operation can receive: 200, the
    three of the [except] clauses (500, 503, 504), or the status the upstream
    answered with. *)
Theorem client_statuses (net : network) (method url : string)
  (data : value) (log : list log_line) (answer : http_response) :
  library_outcome (net (oracle_call method url data)) = true ->
  fst (serve (make_oracle_request net method url data) log) = Ok answer ->
  resp_status answer = 200 \/ resp_status answer = 500 \/
  resp_status answer = 503 \/ resp_status answer = 504 \/
  (exists r, net (oracle_call method url data) = Responds r /\
             resp_status answer = status_code r).
Proof using Type.
  clear format.
  intros Hlib. rewrite serve_run.
  pose proof (forwarding_failure_status net method url data log) as Hfail.
  destruct (make_oracle_request net method url data log)
    as [[v|[code detail|classes message]] log'] eqn:Hrun; cbn [fst] in Hfail |- *.
  - destruct (finite_floats v); cbn; intros [= <-]; cbn; tauto.
  - specialize (Hfail code detail Hlib eq_refl).
    destruct (finite_floats detail); cbn; intros [= <-]; cbn; [|tauto].
    destruct Hfail as [H|[H|[H|(r & Hnet & H & _)]]]; try tauto.
    right; right; right; right. now exists r.
  - cbn. intros [= <-]. cbn. tauto.
Qed.

(** What the client of each of the five routes receives is what serving the
    forwarding operation gives, with the route's verb and body and with the
    record id appended to the base URL as it is; the route's own log line
    makes no difference to it. *)
Theorem routes_answer_as_forwarding (net : network) (record_id : string)
  (entries : list (string * value)) (body : value) (log : list log_line) :
  fst (serve (read_data net) log)
  = fst (serve (make_oracle_request net "GET" ORACLE_URL VNone) log) /\
  fst (serve (create_data net (Ok (VDict entries))) log)
  = fst (serve (make_oracle_request net "POST" ORACLE_URL (VDict entries)) log) /\
  fst (serve (read_record net record_id) log)
  = fst (serve (make_oracle_request net "GET" (ORACLE_URL ++ record_id) VNone) log) /\
  fst (serve (update_data net record_id (Ok body)) log)
  = fst (serve (make_oracle_request net "PUT" (ORACLE_URL ++ record_id) body) log) /\
  fst (serve (delete_data net record_id) log)
  = fst (serve (make_oracle_request net "DELETE" (ORACLE_URL ++ record_id) VNone) log).
Proof.
  destruct (routes_forward net record_id body log) as (Hlist & Hread & Hupdate & Hdelete & _).
  destruct (routes_forward net record_id (VDict entries) log) as (_ & _ & _ & _ & Hcreate).
  specialize (Hcreate entries eq_refl).
  repeat split; apply serve_result.
  - rewrite Hlist. apply make_oracle_request_result.
  - rewrite Hcreate. apply make_oracle_request_result.
  - rewrite Hread. apply make_oracle_request_result.
  - rewrite Hupdate. apply make_oracle_request_result.
  - rewrite Hdelete. apply make_oracle_request_result.
Qed.


(** A request body that is not JSON stops [create_data] and [update_data]
    before anything is logged or sent upstream: the decoder's exception
    leaves the route, and the client receives status 500. *)
Theorem undecodable_request_body (net : network) (record_id : string)
  (classes : list pyclass) (message : string) (log : list log_line) :
  create_data net (Exc (PyError classes message)) log = (Exc (PyError classes message), log) /\
  update_data net record_id (Exc (PyError classes message)) log
  = (Exc (PyError classes message), log) /\
  fst (serve (create_data net (Exc (PyError classes message))) log)
  = Ok (catch_all_envelope message) /\
  fst (serve (update_data net record_id (Exc (PyError classes message))) log)
  = Ok (catch_all_envelope message).
Proof. repeat split. Qed.

(** ** The time lookup and the health check, further *)

(** The time lookup gives [t] exactly when the time service answers, with
    whatever status, a JSON object whose [datetime] is [t]; where the object
    has no [datetime], it raises the [KeyError] of the key. *)
Theorem time_lookup_cases (net : network) (t : value) :
  (fst (current_time net []) = Ok t <->
   exists r entries,
     net (get_call TIME_URL None) = Responds r /\
     json r = Ok (VDict entries) /\
     lookup "datetime" entries = Some t) /\
  (forall r entries,
      net (get_call TIME_URL None) = Responds r ->
      json r = Ok (VDict entries) ->
      lookup "datetime" entries = None ->
      fst (current_time net []) = Exc (KeyError "'datetime'")).
Proof.
  unfold current_time, bind, requests_get, requests_request, lift, ret, raise.
  fold (get_call TIME_URL None).
  split; [split|].
  - destruct (net (get_call TIME_URL None)) as [r|e]; [|discriminate].
    destruct (json r) as [body|e] eqn:Hjson; [|discriminate].
    destruct body as [| | | | | |entries]; try discriminate.
    cbn. destruct (lookup "datetime" entries) as [v|] eqn:Hlookup; [|discriminate].
    intros [= ->]. now exists r, entries.
  - intros (r & entries & -> & Hjson & Hlookup). rewrite Hjson. cbn. now rewrite Hlookup.
  - intros r entries -> Hjson Hlookup. rewrite Hjson. cbn. now rewrite Hlookup.
Qed.

(** Whenever the time lookup gives a time that renders, the health check
    answers status 200 with "status": "healthy" and logs nothing, be the
    upstream connected, in error or unreachable. *)
Theorem health_is_200_whenever_time_is (net : network) (log : list log_line) (t : value) :
  fst (current_time net []) = Ok t ->
  finite_floats t = true ->
  exists oracle_status,
    (oracle_status = "connected" \/ oracle_status = "error"
     \/ oracle_status = "disconnected") /\
    serve (health_check net) log
    = (Ok {| resp_status := 200; resp_content := health_report oracle_status t |}, log).
Proof using Type.
  clear format.
  intros Htime Hfinite.
  assert (Hrun : exists oracle_status,
             (oracle_status = "connected" \/ oracle_status = "error"
              \/ oracle_status = "disconnected") /\
             health_check net log = (Ok (health_report oracle_status t), log)).
  { unfold health_check, try_except, bind, requests_get, requests_request, ret, raise.
    destruct (net _) as [r|e].
    - destruct (status_code r =? 200).
      + exists "connected". split; [tauto|]. now rewrite current_time_run, Htime.
      + exists "error". split; [tauto|]. now rewrite current_time_run, Htime.
    - exists "disconnected". split; [tauto|]. now rewrite current_time_run, Htime. }
  destruct Hrun as (oracle_status & Hcases & Hrun).
  exists oracle_status. split; [exact Hcases|].
  rewrite serve_run, Hrun.
  replace (finite_floats (health_report oracle_status t)) with true; [reflexivity|].
  cbn. now rewrite Hfinite.
Qed.

(** ** Summary statistics, further *)

Lemma summary_body_after_listing (net : network) (log : list log_line) (records : value) :
  upstream_records net records ->
  summary_body net log
  = (statistics records (fst (current_time net [])),
     (log ++ [status_line "GET" ORACLE_URL 200])%list).
Proof.
  intros (r & body & Hnet & Hcode & Hjson & Hrecords).
  unfold summary_body, bind.
  rewrite (make_oracle_request_responds _ _ _ _ _ _ Hnet).
  unfold try_except, map_status, lift. rewrite Hcode, Hjson. cbn [Z.eqb Pos.eqb].
  rewrite Hrecords. unfold statistics, rbind.
  destruct (len records); [|reflexivity].
  destruct (pending_orders records); [|reflexivity].
  destruct (total_revenue records); [|reflexivity].
  destruct (count_products records); [|reflexivity].
  rewrite current_time_run.
  destruct (fst (current_time net [])); reflexivity.
Qed.

Lemma get_summary_stats_run (net : network) (log : list log_line) :
  get_summary_stats net log
  = match summary_body net log with
    | (Ok v, log') => (Ok v, log')
    | (Exc e, log') => (Ok (degraded (str e)), (log' ++ [stats_error_line (str e)])%list)
    end.
Proof.
  rewrite get_summary_stats_unfold. unfold try_except.
  destruct (summary_body net log) as [[v|e] log']; reflexivity.
Qed.

Lemma finite_degraded (message : string) : finite_floats (degraded message) = true.
Proof. reflexivity. Qed.

(** When the listing fails, by a transport fault or by an upstream error,
    the statistics endpoint answers status 200 with the degraded body that
    carries the text of the failure, and logs one error line after the lines
    of the forwarding operation. *)
Theorem stats_degrade_on_upstream_failure (net : network) (log : list log_line) (e : exn) :
  fst (make_oracle_request net "GET" ORACLE_URL VNone log) = Exc e ->
  serve (get_summary_stats net) log
  = (Ok {| resp_status := 200; resp_content := degraded (str e) |},
     (snd (make_oracle_request net "GET" ORACLE_URL VNone log)
        ++ [stats_error_line (str e)])%list).
Proof.
  intros Hfail. rewrite serve_run, get_summary_stats_run.
  unfold summary_body, bind.
  destruct (make_oracle_request net "GET" ORACLE_URL VNone log) as [[v|e'] log'];
    cbn [fst] in Hfail; [discriminate|].
  injection Hfail as ->. reflexivity.
Qed.

(** A failure of the time lookup, which the health check lets through, is
    caught here: with the listing answered and every statistic computed, the
    endpoint still returns the degraded body, carrying the text of the time
    lookup's exception, with status 200. *)
Theorem stats_degrade_on_time_failure (net : network) (log : list log_line)
  (records : value) (total pending : Z) (revenue : value) (products : counts) (e : exn) :
  upstream_records net records ->
  len records = Ok total ->
  pending_orders records = Ok pending ->
  total_revenue records = Ok revenue ->
  count_products records = Ok products ->
  fst (current_time net []) = Exc e ->
  fst (get_summary_stats net log) = Ok (degraded (str e)) /\
  fst (serve (get_summary_stats net) log)
  = Ok {| resp_status := 200; resp_content := degraded (str e) |}.
Proof.
  intros Hup Hlen Hpending Hrevenue Hproducts Htime.
  rewrite serve_run, get_summary_stats_run, (summary_body_after_listing _ _ _ Hup), Htime.
  unfold statistics. rewrite Hlen, Hpending, Hrevenue, Hproducts. split; reflexivity.
Qed.

Lemma map_r_stops {A B} (f : A -> result B) (good : list A) (bad : A) (rest : list A)
  (xs : list B) (e : exn) :
  map_r f good = Ok xs -> f bad = Exc e -> map_r f (good ++ bad :: rest) = Exc e.
Proof.
  revert xs. induction good as [|a good IH]; intros xs Hgood Hbad.
  - cbn. now rewrite Hbad.
  - cbn in Hgood |- *. destruct (f a); cbn in Hgood |- *; [|discriminate].
    destruct (map_r f good) as [ys|]; cbn in Hgood |- *; [|discriminate].
    now rewrite (IH ys eq_refl Hbad).
Qed.

Lemma filter_r_stops {A} (p : A -> result bool) (good : list A) (bad : A) (rest : list A)
  (kept : list A) (e : exn) :
  filter_r p good = Ok kept -> p bad = Exc e -> filter_r p (good ++ bad :: rest) = Exc e.
Proof.
  revert kept. induction good as [|a good IH]; intros kept Hgood Hbad.
  - cbn. now rewrite Hbad.
  - cbn in Hgood |- *. destruct (p a); cbn in Hgood |- *; [|discriminate].
    destruct (filter_r p good) as [ys|]; cbn in Hgood |- *; [|discriminate].
    now rewrite (IH ys eq_refl Hbad).
Qed.

Lemma filter_r_records (items : list value) :
  Forall (fun item => is_record item = true) items ->
  exists kept,
    filter_r (fun r => status <~ get r "status" VNone ;; Ok (eq_str status "Pending")) items
    = Ok kept.
Proof.
  induction 1 as [|item rest Hitem _ (kept & IH)]; [now exists []|].
  destruct item as [| | | | | |entries]; try discriminate.
  cbn [filter_r]. rewrite get_record, IH. cbn. eexists. reflexivity.
Qed.

Lemma map_r_amounts (items : list value) (amounts : list float) :
  Forall (fun item => is_record item = true) items ->
  Forall2 (fun item x => amount item = Ok x) items amounts ->
  map_r (fun r => amount <~ get r "total_amount" (VInt 0) ;; float_ amount) items
  = Ok amounts.
Proof.
  intros Hrec Hamounts.
  induction Hamounts as [|item x rest xs Hx _ IH]; [reflexivity|].
  inversion Hrec as [|? ? Hitem Hrest]; subst.
  destruct item as [| | | | | |entries]; try discriminate.
  cbn [map_r]. rewrite get_record, (IH Hrest).
  unfold amount, field in Hx. unfold rbind at 2.
  destruct (lookup "total_amount" entries); unfold rbind; rewrite Hx; reflexivity.
Qed.

(** One amount that does not coerce discards every statistic: with all
    items records, the first item whose [total_amount] makes [float] raise
    turns the whole answer into the degraded body with the text of that
    exception, the count of records included. *)
Theorem stats_degrade_on_bad_amount (net : network) (log : list log_line)
  (good : list value) (bad : value) (rest : list value) (amounts : list float) (e : exn) :
  upstream_items net (good ++ bad :: rest) ->
  Forall (fun item => is_record item = true) (good ++ bad :: rest) ->
  Forall2 (fun item x => amount item = Ok x) good amounts ->
  amount bad = Exc e ->
  fst (get_summary_stats net log) = Ok (degraded (str e)).
Proof using Type.
  clear format.
  intros Hup Hrec Hgood Hbad.
  rewrite get_summary_stats_run, (summary_body_after_listing _ _ (VList (good ++ bad :: rest))).
  2: exact Hup.
  unfold statistics. cbn [len rbind].
  rewrite (pending_orders_counts _ Hrec).
  replace (total_revenue (VList (good ++ bad :: rest))) with (@Exc value e); [reflexivity|].
  unfold total_revenue. cbn [iter rbind].
  assert (Hgoodrec : Forall (fun item => is_record item = true) good).
  { apply Forall_app in Hrec. tauto. }
  assert (Hbadrec : is_record bad = true).
  { apply Forall_app in Hrec as [_ Hrec]. now inversion Hrec. }
  rewrite (map_r_stops _ good bad rest amounts e (map_r_amounts _ _ Hgoodrec Hgood)).
  - reflexivity.
  - destruct bad as [| | | | | |entries]; try discriminate.
    rewrite get_record. unfold amount, field in Hbad. cbn [rbind].
    destruct (lookup "total_amount" entries); exact Hbad.
Qed.

(** An item that is no JSON object does the same: the first such item
    makes the endpoint return the degraded body with the text of the
    [AttributeError] for its type. *)
Theorem stats_degrade_on_bad_item (net : network) (log : list log_line)
  (good : list value) (bad : value) (rest : list value) :
  upstream_items net (good ++ bad :: rest) ->
  Forall (fun item => is_record item = true) good ->
  is_record bad = false ->
  fst (get_summary_stats net log)
  = Ok (degraded ("'" ++ type_name bad ++ "' object has no attribute 'get'")).
Proof.
  intros Hup Hgood Hbad.
  rewrite get_summary_stats_run, (summary_body_after_listing _ _ (VList (good ++ bad :: rest))).
  2: exact Hup.
  unfold statistics. cbn [len rbind].
  unfold pending_orders. cbn [iter rbind].
  destruct (filter_r_records good Hgood) as (kept & Hkept).
  rewrite (filter_r_stops _ good bad rest kept
             (AttributeError ("'" ++ type_name bad ++ "' object has no attribute 'get'")) Hkept).
  - reflexivity.
  - destruct bad; try discriminate; reflexivity.
Qed.

(** [items] that are present and are no list, dict or string (null, say)
    are not taken for the empty list: [len] raises, and the endpoint returns
    the degraded body. *)
Theorem stats_degrade_on_unsized_items (net : network) (log : list log_line)
  (records : value) :
  upstream_records net records ->
  (forall items, records <> VList items) ->
  (forall entries, records <> VDict entries) ->
  (forall s, records <> VStr s) ->
  fst (get_summary_stats net log)
  = Ok (degraded ("object of type '" ++ type_name records ++ "' has no len()")).
Proof.
  intros Hup Hlist Hdict Hstr.
  rewrite get_summary_stats_run, (summary_body_after_listing _ _ _ Hup).
  unfold statistics.
  destruct records; try reflexivity.
  - now destruct (Hstr s).
  - now destruct (Hlist items).
  - now destruct (Hdict entries).
Qed.

Lemma filter_r_length {A} (p : A -> result bool) (l kept : list A) :
  filter_r p l = Ok kept -> (List.length kept <= List.length l)%nat.
Proof.
  revert kept. induction l as [|a l IH]; intros kept.
  - cbn. intros [= <-]. constructor.
  - cbn. destruct (p a) as [keep|]; cbn; [|discriminate].
    destruct (filter_r p l) as [kept'|]; cbn; [|discriminate].
    specialize (IH kept' eq_refl).
    destruct keep; intros [= <-]; cbn; lia.
Qed.

Lemma length_list_ascii_of_string (s : string) :
  List.length (list_ascii_of_string s) = String.length s.
Proof. induction s as [|c s IH]; cbn; congruence. Qed.

(** What [for r in records] visits is as long as [len(records)]. *)
Lemma iter_length (records : value) (rs : list value) (n : Z) :
  iter records = Ok rs -> len records = Ok n -> n = Z.of_nat (List.length rs).
Proof.
  destruct records; try discriminate; cbn; intros [= <-] [= <-].
  - now rewrite length_map, length_list_ascii_of_string.
  - reflexivity.
  - now rewrite length_map.
Qed.

(** Whatever the records, when both are computed [pending_orders] lies
    between 0 and [total_records]. *)
Theorem pending_within_total (records : value) (total pending : Z) :
  len records = Ok total ->
  pending_orders records = Ok pending ->
  0 <= pending <= total.
Proof.
  intros Hlen. unfold pending_orders.
  destruct (iter records) as [rs|] eqn:Hiter; cbn [rbind]; [|discriminate].
  rewrite (iter_length _ _ _ Hiter Hlen).
  destruct (filter_r _ rs) as [kept|] eqn:Hkept; cbn [rbind]; [|discriminate].
  intros [= <-]. apply filter_r_length in Hkept. lia.
Qed.

Lemma total_count_app (T U : counts) :
  total_count (T ++ U)%list = total_count T + total_count U.
Proof.
  unfold total_count. induction T as [|[p c] T IH]; [reflexivity|].
  cbn [app fold_right snd]. rewrite IH. lia.
Qed.

(** Each turn of the loop that counts a name adds one to the sum of the
    counts. *)
Lemma fold_total_count (items : list value) (T0 T : counts) :
  fold_r count_product items T0 = Ok T ->
  total_count T = total_count T0 + Z.of_nat (List.length (product_names items)).
Proof.
  revert T0. induction items as [|item rest IH]; intros T0.
  - cbn. intros [= <-]. lia.
  - cbn [fold_r product_names]. unfold rbind.
    destruct (count_product T0 item) as [T1|e] eqn:Hstep; [|discriminate].
    intros Hfold. rewrite (IH _ Hfold).
    apply count_product_cases in Hstep as [[-> ->] | (v & k & -> & Hk & ->)]; [lia|].
    cbn [List.length].
    destruct (counts_step k v (counts_get k T0 0 + 1) 0 T0)
      as [(T1 & p & c & T2 & HT & _ & _ & Hget & Hset) | (_ & Hget & Hset)].
    + rewrite Hset, Hget, HT, !total_count_app. cbn. lia.
    + rewrite Hset, Hget, total_count_app. cbn. lia.
Qed.

Lemma occurrences_positive (p : value) (names : list value) :
  In p names -> same_product p p = true -> 1 <= occurrences p names.
Proof.
  intros Hin Hsame. unfold occurrences.
  assert (Hfiltered : In p (filter (same_product p) names)) by (apply filter_In; now split).
  destruct (filter (same_product p) names); [destruct Hfiltered|cbn [List.length]; lia].
Qed.

(** The dict the loop of lines 149-153 builds counts the product names:
    its keys are distinct, each is a name that occurs among the items and is
    counted as often as it occurs, at least once; every name is under its
    key; and the counts add up to the number of items with a non-empty name. *)
Theorem products_count_the_names (items : list value) (products : counts) :
  count_products (VList items) = Ok products ->
  NoDup (map key_of (map fst products)) /\
  (forall p c, In (p, c) products ->
     In p (product_names items) /\ c = occurrences p (product_names items) /\ 1 <= c) /\
  (forall w, In w (product_names items) ->
     exists p c, In (p, c) products /\ same_product w p = true) /\
  total_count products = Z.of_nat (List.length (product_names items)).
Proof.
  unfold count_products. cbn [iter rbind]. intros Hfold.
  pose proof (fold_tallies items [] [] products tallies_nil Hfold) as Hinv.
  cbn [app] in Hinv. destruct Hinv as (Hnodup & Hcount & Hcover & Horder).
  split; [exact Hnodup|]. split; [|split].
  - intros p c Hin. destruct (Hcount p c Hin) as [Hhash Hc].
    assert (Hp : In p (product_names items)).
    { apply in_split in Hin as (T1 & T2 & ->).
      destruct (Horder (map fst T1) p (map fst T2)) as (before & after & -> & _).
      - now rewrite map_app.
      - apply in_or_app. right. now left. }
    split; [exact Hp|]. split; [exact Hc|]. rewrite Hc.
    apply occurrences_positive; [exact Hp|].
    apply same_product_iff. destruct (key_of p) as [k|]; [now exists k|contradiction].
  - intros w Hw. destruct (Hcover w Hw) as (p & Hp & Hsame).
    apply in_map_iff in Hp as ([p' c] & Hfst & Hp). cbn in Hfst. subst p'.
    now exists p, c.
  - rewrite (fold_total_count items [] products Hfold). reflexivity.
Qed.

(** The statistics endpoint function never raises.  It returns the degraded
    body, which the client receives with status 200, or the body of the five
    statistics, which the client receives with status 200 if it renders and
    otherwise loses to the catch-all answer with status 500. *)
Theorem stats_answer (net : network) (log : list log_line) :
  (exists message,
      fst (get_summary_stats net log) = Ok (degraded message) /\
      fst (serve (get_summary_stats net) log)
      = Ok {| resp_status := 200; resp_content := degraded message |}) \/
  (exists total pending revenue top last_updated,
      fst (get_summary_stats net log) = Ok (summary total pending revenue top last_updated) /\
      fst (serve (get_summary_stats net) log)
      = Ok (if finite_floats revenue && finite_floats top && finite_floats last_updated
            then {| resp_status := 200;
                    resp_content := summary total pending revenue top last_updated |}
            else catch_all_envelope "Out of range float values are not JSON compliant")).
Proof.
  rewrite serve_run, get_summary_stats_run.
  unfold summary_body, bind, lift, ret.
  destruct (make_oracle_request net "GET" ORACLE_URL VNone log) as [[data|e] log1];
    [|left; eexists; split; reflexivity].
  destruct (get data "items" (VList [])) as [records|e]; [|left; eexists; split; reflexivity].
  destruct (len records) as [total|e]; [|left; eexists; split; reflexivity].
  destruct (pending_orders records) as [pending|e]; [|left; eexists; split; reflexivity].
  destruct (total_revenue records) as [revenue|e]; [|left; eexists; split; reflexivity].
  destruct (count_products records) as [products|e]; [|left; eexists; split; reflexivity].
  destruct (current_time net log1) as [[last_updated|e] log2];
    [|left; eexists; split; reflexivity].
  right. exists total, pending, revenue, (top_product products), last_updated.
  split; [reflexivity|].
  cbn [fst snd]. fold (summary total pending revenue (top_product products) last_updated).
  replace (finite_floats (summary total pending revenue (top_product products) last_updated))
    with (finite_floats revenue && finite_floats (top_product products)
          && finite_floats last_updated).
  - destruct (finite_floats revenue && finite_floats (top_product products)
              && finite_floats last_updated); reflexivity.
  - cbn. now rewrite andb_true_r, andb_assoc.
Qed.

Lemma map_r_length {A B} (f : A -> result B) (l : list A) (ys : list B) :
  map_r f l = Ok ys -> List.length ys = List.length l.
Proof.
  revert ys. induction l as [|a l IH]; intros ys.
  - cbn. now intros [= <-].
  - cbn. destruct (f a); cbn; [|discriminate].
    destruct (map_r f l) as [ys'|]; cbn; [|discriminate].
    intros [= <-]. cbn. now rewrite (IH ys' eq_refl).
Qed.

(** [total_revenue] is the int 0 when there is nothing to add up, and a
    float as soon as there is one record, also when no record has an amount. *)
Theorem revenue_is_int_only_when_empty (records : value) (revenue : value) :
  total_revenue records = Ok revenue ->
  (iter records = Ok [] /\ revenue = VInt 0) \/
  (exists r rs x, iter records = Ok (r :: rs) /\ revenue = VFloat x).
Proof.
  unfold total_revenue.
  destruct (iter records) as [rs|]; cbn [rbind]; [|discriminate].
  destruct (map_r _ rs) as [amounts|] eqn:Hmap; cbn [rbind]; [|discriminate].
  intros [= <-]. apply map_r_length in Hmap.
  destruct rs as [|r rs], amounts as [|x amounts]; try discriminate.
  - now left.
  - right. exists r, rs. eexists. split; reflexivity.
Qed.

End Proxy.

(** ** Worked examples *)

(** C1 at a listing answered with 200 and at a creation answered with 201. *)
Lemma success_is_relayed_witness :
  fst (make_oracle_request sample_phrase sample_text
         (answers 200 (Ok (VDict [("items", VList [])]))) "GET" ORACLE_URL VNone [])
  = Ok (VDict [("items", VList [])]) /\
  fst (make_oracle_request sample_phrase sample_text
         (answers 201 (Ok (VDict [("id", VInt 7)]))) "POST" ORACLE_URL
         (VDict [("customer_name", VStr "ACME")]) [])
  = Ok (VDict [("success", VBool true); ("data", VDict [("id", VInt 7)])]).
Proof.
  split.
  - apply (proj1 (success_is_relayed sample_phrase sample_text
                    (answers 200 (Ok (VDict [("items", VList [])]))) "GET" ORACLE_URL VNone
                    _ _ [] eq_refl eq_refl)).
    reflexivity.
  - apply (proj2 (success_is_relayed sample_phrase sample_text
                    (answers 201 (Ok (VDict [("id", VInt 7)]))) "POST" ORACLE_URL
                    (VDict [("customer_name", VStr "ACME")]) _ _ [] eq_refl eq_refl)).
    reflexivity.
Defined.

(** C2 at a deletion of a record the upstream does not have. *)
Lemma not_found_envelope_witness :
  fst (serve sample_text
         (make_oracle_request sample_phrase sample_text
            (answers 404 (Exc plain_json_error)) "DELETE" (ORACLE_URL ++ "42") VNone) [])
  = Ok {| resp_status := 404;
          resp_content := VDict [("error", VStr "Record not found");
                                 ("status_code", VInt 404)] |}.
Proof.
  apply (not_found_envelope sample_phrase sample_text
           (answers 404 (Exc plain_json_error)) "DELETE" (ORACLE_URL ++ "42") VNone
           _ [] eq_refl).
  reflexivity.
Defined.

(** C3, amended, at a 400 with a message, a 500 and a 599 whose message is
    null, a 500 without a message and a 502 whose body is a page of HTML. *)
Lemma upstream_error_message_witness :
  fst (make_oracle_request sample_phrase sample_text
         (answers 400 (Ok (VDict [("code", VStr "BadRequest"); ("message", VStr "ORA-01400")])))
         "POST" ORACLE_URL (VDict []) [])
  = Exc (HTTPException 400 (VStr "ORA-01400")) /\
  fst (make_oracle_request sample_phrase sample_text
         (answers 500 (Ok (VDict [("message", VNone)]))) "GET" ORACLE_URL VNone [])
  = Exc (HTTPException 500 (VStr "Internal Server Error")) /\
  (fst (make_oracle_request sample_phrase sample_text
          (answers 599 (Ok (VDict [("message", VNone)]))) "GET" ORACLE_URL VNone [])
   = Exc (ValueError "599 is not a valid HTTPStatus") /\
   fst (serve sample_text
          (make_oracle_request sample_phrase sample_text
             (answers 599 (Ok (VDict [("message", VNone)]))) "GET" ORACLE_URL VNone) [])
   = Ok (catch_all_envelope "599 is not a valid HTTPStatus")) /\
  fst (make_oracle_request sample_phrase sample_text
         (answers 500 (Ok (VDict [("code", VStr "InternalError")])))
         "GET" ORACLE_URL VNone [])
  = Exc (HTTPException 500 (VStr "Oracle API error: 500")) /\
  fst (make_oracle_request sample_phrase sample_text
         (answers 502 (Exc plain_json_error)) "GET" ORACLE_URL VNone [])
  = Exc (HTTPException 502 (VStr "Oracle API returned status 502")).
Proof.
  split; [|split; [|split; [|split]]].
  - apply (proj1 (upstream_error_message sample_phrase sample_text
                    (answers 400 (Ok (VDict [("code", VStr "BadRequest");
                                             ("message", VStr "ORA-01400")])))
                    "POST" ORACLE_URL (VDict []) _ [] eq_refl
                    ltac:(discriminate) ltac:(discriminate) ltac:(discriminate))
             [("code", VStr "BadRequest"); ("message", VStr "ORA-01400")]
             (VStr "ORA-01400") eq_refl eq_refl).
    discriminate.
  - apply (proj1 (proj2 (upstream_error_message sample_phrase sample_text
                           (answers 500 (Ok (VDict [("message", VNone)])))
                           "GET" ORACLE_URL VNone _ [] eq_refl
                           ltac:(discriminate) ltac:(discriminate) ltac:(discriminate)))
             [("message", VNone)] "Internal Server Error" eq_refl eq_refl eq_refl).
  - apply (proj1 (proj2 (proj2 (upstream_error_message sample_phrase sample_text
                                  (answers 599 (Ok (VDict [("message", VNone)])))
                                  "GET" ORACLE_URL VNone _ [] eq_refl
                                  ltac:(discriminate) ltac:(discriminate) ltac:(discriminate))))
             [("message", VNone)] eq_refl eq_refl eq_refl).
  - apply (proj1 (proj2 (proj2 (proj2 (upstream_error_message sample_phrase sample_text
                           (answers 500 (Ok (VDict [("code", VStr "InternalError")])))
                           "GET" ORACLE_URL VNone _ [] eq_refl
                           ltac:(discriminate) ltac:(discriminate) ltac:(discriminate)))))
             [("code", VStr "InternalError")] eq_refl eq_refl).
  - apply (proj2 (proj2 (proj2 (proj2 (upstream_error_message sample_phrase sample_text
                           (answers 502 (Exc plain_json_error))
                           "GET" ORACLE_URL VNone _ [] eq_refl
                           ltac:(discriminate) ltac:(discriminate) ltac:(discriminate)))))).
    reflexivity.
Defined.

(** C3 as stated fails where the body is JSON and no object, here the empty
    array on a 500: the field is absent, the statement's message is "Oracle
    API error: 500", and the code's is "Oracle API returned status 500"
    (a list has no [get], and the bare [except] takes the [AttributeError]).
    It fails as well where the message is null: the exception then carries
    the reason phrase of the status. *)
Lemma upstream_error_message_counterexample :
  stated_error_message {| status_code := 500; json := Ok (VList []) |}
  = VStr "Oracle API error: 500" /\
  fst (make_oracle_request sample_phrase sample_text
         (answers 500 (Ok (VList []))) "GET" ORACLE_URL VNone [])
  = Exc (HTTPException 500 (VStr "Oracle API returned status 500")) /\
  fst (make_oracle_request sample_phrase sample_text
         (answers 500 (Ok (VList []))) "GET" ORACLE_URL VNone [])
  <> Exc (HTTPException 500
            (stated_error_message {| status_code := 500; json := Ok (VList []) |})) /\
  stated_error_message {| status_code := 500; json := Ok (VDict [("message", VNone)]) |}
  = VNone /\
  fst (make_oracle_request sample_phrase sample_text
         (answers 500 (Ok (VDict [("message", VNone)]))) "GET" ORACLE_URL VNone [])
  = Exc (HTTPException 500 (VStr "Internal Server Error")).
Proof.
  split; [reflexivity|]. split; [reflexivity|]. split; [discriminate|].
  split; reflexivity.
Qed.

(** C4 at a read timeout, a connection attempt that timed out, a refused
    connection and a redirect loop. *)
Lemma transport_faults_by_kind_witness :
  fst (make_oracle_request sample_phrase sample_text (fails read_timeout)
         "GET" ORACLE_URL VNone [])
  = Exc (HTTPException 504 (VStr "Oracle database timeout")) /\
  fst (make_oracle_request sample_phrase sample_text (fails connect_timeout)
         "PUT" (ORACLE_URL ++ "7") (VDict []) [])
  = Exc (HTTPException 504 (VStr "Oracle database timeout")) /\
  fst (make_oracle_request sample_phrase sample_text (fails connection_refused)
         "POST" ORACLE_URL (VDict []) [])
  = Exc (HTTPException 503 (VStr "Cannot connect to Oracle database")) /\
  fst (make_oracle_request sample_phrase sample_text (fails too_many_redirects)
         "DELETE" (ORACLE_URL ++ "7") VNone [])
  = Exc (HTTPException 500 (VStr "Internal server error")).
Proof.
  split; [|split; [|split]].
  - apply (proj1 (transport_faults_by_kind sample_phrase sample_text (fails read_timeout)
                    "GET" ORACLE_URL VNone read_timeout [] eq_refl)).
    reflexivity.
  - apply (proj1 (transport_faults_by_kind sample_phrase sample_text (fails connect_timeout)
                    "PUT" (ORACLE_URL ++ "7") (VDict []) connect_timeout [] eq_refl)).
    reflexivity.
  - apply (proj1 (proj2 (transport_faults_by_kind sample_phrase sample_text
                           (fails connection_refused)
                           "POST" ORACLE_URL (VDict []) connection_refused [] eq_refl)));
      reflexivity.
  - apply (proj2 (proj2 (transport_faults_by_kind sample_phrase sample_text
                           (fails too_many_redirects)
                           "DELETE" (ORACLE_URL ++ "7") VNone too_many_redirects [] eq_refl)));
      reflexivity.
Defined.

(** C5 fails on the code.  The upstream lists one item whose [total_amount]
    is the string "inf"; [float("inf")] is infinity, so the endpoint returns a
    body with [total_revenue] infinite, outside its [try] block the response
    cannot be rendered, and the client receives status 500 from the catch-all
    handler. *)
Theorem summary_stats_status_500 :
  fst (get_summary_stats sample_phrase sample_text
         (upstream (ok_json infinite_amount) sample_clock) [])
  = Ok (summary 1 0 (VFloat infinity) (VStr "None") (VStr "2025-01-01T12:00:00+03:00")) /\
  fst (serve sample_text
         (get_summary_stats sample_phrase sample_text
            (upstream (ok_json infinite_amount) sample_clock)) [])
  = Ok {| resp_status := 500;
          resp_content :=
            VDict [("error", VStr "Internal server error");
                   ("details", VStr "Out of range float values are not JSON compliant")] |}.
Proof. split; reflexivity. Qed.

(** C6, amended, at two records, one pending, with the amounts 0.5 (a
    number) and "0.25" (a string); at the example of the specification; and
    at a listing that has no [items]. *)
Lemma summary_statistics_witness :
  (exists products,
      count_products (VList priced_items) = Ok products /\
      fst (get_summary_stats sample_phrase sample_text
             (upstream (ok_json (VDict [("items", VList priced_items)])) sample_clock) [])
      = Ok (summary (Z.of_nat (List.length priced_items))
              (Z.of_nat (List.length (filter is_pending priced_items)))
              (sum_ [0.5; 0.25]%float) (top_product products)
              (VStr "2025-01-01T12:00:00+03:00"))) /\
  fst (get_summary_stats sample_phrase sample_text
         (upstream (ok_json (VDict [("items", VList example_items)])) sample_clock) [])
  = Ok (summary 3 1 (VFloat 15.5) (VStr "A") (VStr "2025-01-01T12:00:00+03:00")) /\
  fst (get_summary_stats sample_phrase sample_text
         (upstream (ok_json (VDict [("count", VInt 0)])) sample_clock) [])
  = Ok (summary 0 0 (VInt 0) (VStr "None") (VStr "2025-01-01T12:00:00+03:00")).
Proof.
  split; [|split].
  - apply (proj1 (summary_statistics sample_phrase sample_text
                    (upstream (ok_json (VDict [("items", VList priced_items)])) sample_clock)
                    [] (VStr "2025-01-01T12:00:00+03:00") eq_refl)
             priced_items [0.5; 0.25]%float).
    + exists {| status_code := 200; json := Ok (VDict [("items", VList priced_items)]) |},
        (VDict [("items", VList priced_items)]).
      repeat split.
    + repeat constructor.
    + repeat constructor.
    + repeat constructor.
  - apply (proj1 (proj2 (summary_statistics sample_phrase sample_text
                           (upstream (ok_json (VDict [("items", VList example_items)]))
                              sample_clock)
                           [] (VStr "2025-01-01T12:00:00+03:00") eq_refl))).
    exists {| status_code := 200; json := Ok (VDict [("items", VList example_items)]) |},
      (VDict [("items", VList example_items)]).
    repeat split.
  - apply (proj2 (proj2 (summary_statistics sample_phrase sample_text
                           (upstream (ok_json (VDict [("count", VInt 0)])) sample_clock)
                           [] (VStr "2025-01-01T12:00:00+03:00") eq_refl))).
    exists {| status_code := 200; json := Ok (VDict [("count", VInt 0)]) |},
      (VDict [("count", VInt 0)]).
    repeat split.
Defined.

(** C6 as stated fails on its own example when the time service is down:
    the upstream returns the three items, the time lookup of line 162 raises
    inside the [try] block, and the endpoint returns the degraded body, whose
    [total_records] is 0 and not 3, whose [pending_orders] is 0 and not 1,
    and whose [total_revenue] is 0 and not 15.5.  It fails as well, with the
    time service up, on one record whose product name is a list: the dict
    of line 153 cannot take it as a key, and [total_records] is 0 and not 1. *)
Lemma summary_statistics_counterexample :
  upstream_items (upstream (ok_json (VDict [("items", VList example_items)]))
                    (Throws connection_refused)) example_items /\
  fst (get_summary_stats sample_phrase sample_text
         (upstream (ok_json (VDict [("items", VList example_items)]))
            (Throws connection_refused)) [])
  = Ok (degraded "Connection refused") /\
  get (degraded "Connection refused") "total_records" VNone = Ok (VInt 0) /\
  VInt 0 <> VInt (Z.of_nat (List.length example_items)) /\
  get (degraded "Connection refused") "pending_orders" VNone = Ok (VInt 0) /\
  VInt 0 <> VInt (Z.of_nat (List.length (filter is_pending example_items))) /\
  get (degraded "Connection refused") "total_revenue" VNone = Ok (VInt 0) /\
  VInt 0 <> VFloat 15.5 /\
  upstream_items (upstream (ok_json (VDict [("items", VList listed_name_items)])) sample_clock)
    listed_name_items /\
  fst (get_summary_stats sample_phrase sample_text
         (upstream (ok_json (VDict [("items", VList listed_name_items)])) sample_clock) [])
  = Ok (degraded "unhashable type: 'list'") /\
  get (degraded "unhashable type: 'list'") "total_records" VNone = Ok (VInt 0) /\
  VInt 0 <> VInt (Z.of_nat (List.length listed_name_items)).
Proof.
  split.
  { exists {| status_code := 200; json := Ok (VDict [("items", VList example_items)]) |},
      (VDict [("items", VList example_items)]).
    repeat split. }
  split; [reflexivity|]. split; [reflexivity|]. split; [discriminate|].
  split; [reflexivity|]. split; [discriminate|].
  split; [reflexivity|]. split; [discriminate|].
  split.
  { exists {| status_code := 200; json := Ok (VDict [("items", VList listed_name_items)]) |},
      (VDict [("items", VList listed_name_items)]).
    repeat split. }
  split; [reflexivity|]. split; [reflexivity|discriminate].
Qed.

(** C7 at a tie: "A" and "B" both occur twice, and "A", met first, is the
    top product. *)
Lemma top_product_most_frequent_witness :
  top_product [(VStr "A", 2); (VStr "B", 2)] = VStr "A" /\
  exists before after,
    product_names tied_items
    = (before ++ top_product [(VStr "A", 2); (VStr "B", 2)] :: after)%list /\
    (forall w, In w (product_names tied_items) ->
       occurrences w (product_names tied_items)
       <= occurrences (top_product [(VStr "A", 2); (VStr "B", 2)]) (product_names tied_items)) /\
    (forall w, In w before ->
       occurrences w (product_names tied_items)
       < occurrences (top_product [(VStr "A", 2); (VStr "B", 2)]) (product_names tied_items)).
Proof.
  split; [reflexivity|].
  apply (proj2 (top_product_most_frequent tied_items [(VStr "A", 2); (VStr "B", 2)] eq_refl)).
  discriminate.
Defined.

(** C8 at an upstream that answers the probe with 200 while the time service
    is unreachable, and at one that answers 503 while the time service works. *)
Lemma health_check_report_witness :
  fst (health_check (upstream (ok_json (VDict [])) (Throws connection_refused)) [])
  = Exc connection_refused /\
  fst (serve sample_text
         (health_check (upstream (ok_json (VDict [])) (Throws connection_refused))) [])
  = Ok (catch_all_envelope "Connection refused") /\
  fst (health_check
         (upstream (Responds {| status_code := 503; json := Exc plain_json_error |})
            sample_clock) [])
  = Ok (health_report "error" (VStr "2025-01-01T12:00:00+03:00")).
Proof.
  split; [|split].
  - apply (proj1 (proj2 (health_check_report sample_text
                           (upstream (ok_json (VDict [])) (Throws connection_refused)) []))).
    reflexivity.
  - apply (proj2 (proj2 (health_check_report sample_text
                           (upstream (ok_json (VDict [])) (Throws connection_refused)) []))
             [ReqConnectionError; RequestException]).
    reflexivity.
  - apply (proj1 (proj2 (proj1 (health_check_report sample_text
                                  (upstream (Responds {| status_code := 503;
                                                         json := Exc plain_json_error |})
                                     sample_clock) [])
                          (VStr "2025-01-01T12:00:00+03:00") eq_refl))
             {| status_code := 503; json := Exc plain_json_error |} eq_refl).
    discriminate.
Defined.

(** C9, amended, at a 404; at a 200 whose body is not JSON, with the
    decoder's exception of either kind; and at a redirect loop. *)
Lemma forwarding_log_witness :
  snd (make_oracle_request sample_phrase sample_text (answers 404 (Ok VNone))
         "GET" (ORACLE_URL ++ "42") VNone [])
  = [status_line "GET" (ORACLE_URL ++ "42") 404] /\
  snd (make_oracle_request sample_phrase sample_text (answers 200 (Exc requests_json_error))
         "GET" ORACLE_URL VNone [])
  = [status_line "GET" ORACLE_URL 200;
     cause_line "Expecting value: line 1 column 1 (char 0)"] /\
  snd (make_oracle_request sample_phrase sample_text (answers 200 (Exc plain_json_error))
         "GET" ORACLE_URL VNone [])
  = [status_line "GET" ORACLE_URL 200] /\
  snd (make_oracle_request sample_phrase sample_text (fails too_many_redirects)
         "GET" ORACLE_URL VNone [])
  = [cause_line "Exceeded 30 redirects."].
Proof.
  split; [|split; [|split]].
  - apply (proj2 (proj1 (forwarding_log sample_phrase sample_text (answers 404 (Ok VNone))
                           "GET" (ORACLE_URL ++ "42") VNone [])
                    {| status_code := 404; json := Ok VNone |} eq_refl)).
    left. split; discriminate.
  - apply (proj1 (proj1 (forwarding_log sample_phrase sample_text
                           (answers 200 (Exc requests_json_error)) "GET" ORACLE_URL VNone [])
                    {| status_code := 200; json := Exc requests_json_error |} eq_refl)
             requests_json_error (or_introl eq_refl) eq_refl eq_refl eq_refl eq_refl).
  - apply (proj2 (proj1 (forwarding_log sample_phrase sample_text
                           (answers 200 (Exc plain_json_error)) "GET" ORACLE_URL VNone [])
                    {| status_code := 200; json := Exc plain_json_error |} eq_refl)).
    right. right. exists plain_json_error. split; [reflexivity|].
    right. right. reflexivity.
  - apply (proj2 (proj2 (forwarding_log sample_phrase sample_text (fails too_many_redirects)
                           "GET" ORACLE_URL VNone [])
                    too_many_redirects eq_refl));
      reflexivity.
Defined.

(** C9 as stated fails on a timeout: the invocation ends in the 504 failure
    and has logged nothing, where the statement has it log one line; and on a
    redirect loop, where the one line logged names neither method nor URL. *)
Lemma forwarding_log_counterexample :
  make_oracle_request sample_phrase sample_text (fails read_timeout)
    "GET" ORACLE_URL VNone []
  = (Exc (HTTPException 504 (VStr "Oracle database timeout")), []) /\
  List.length (snd (make_oracle_request sample_phrase sample_text (fails read_timeout)
                      "GET" ORACLE_URL VNone [])) <> 1%nat /\
  snd (make_oracle_request sample_phrase sample_text (fails too_many_redirects)
         "GET" ORACLE_URL VNone [])
  = [(ERROR, "Request error: Exceeded 30 redirects.")].
Proof.
  split; [reflexivity|]. split; [discriminate|reflexivity].
Qed.

(** C10, amended, at a body that is not JSON, with the decoder's exception
    of either kind. *)
Lemma undecodable_success_body_witness :
  fst (serve sample_text
         (make_oracle_request sample_phrase sample_text
            (answers 200 (Exc plain_json_error)) "GET" ORACLE_URL VNone) [])
  = Ok (catch_all_envelope "Expecting value: line 1 column 1 (char 0)") /\
  fst (serve sample_text
         (make_oracle_request sample_phrase sample_text
            (answers 200 (Exc requests_json_error)) "GET" ORACLE_URL VNone) [])
  = Ok (error_envelope 500 (VStr "Internal server error")).
Proof.
  split.
  - apply (proj1 (undecodable_success_body sample_phrase sample_text
                    (answers 200 (Exc plain_json_error)) "GET" ORACLE_URL VNone
                    _ _ _ [] eq_refl eq_refl eq_refl eq_refl eq_refl)).
    reflexivity.
  - apply (proj2 (undecodable_success_body sample_phrase sample_text
                    (answers 200 (Exc requests_json_error)) "GET" ORACLE_URL VNone
                    _ _ _ [] eq_refl eq_refl eq_refl eq_refl eq_refl)).
    reflexivity.
Defined.

(** C10 as stated fails with the requests library as it has been since
    version 2.27: [response.json()] raises an exception of the library's own
    on a body that is not JSON, the clause of line 75 catches it, and the
    client receives the [{error, status_code}] envelope, not the catch-all
    one. *)
Lemma undecodable_success_body_counterexample :
  isinstance requests_json_error RequestException = true /\
  fst (make_oracle_request sample_phrase sample_text
         (answers 200 (Exc requests_json_error)) "GET" ORACLE_URL VNone [])
  = Exc (HTTPException 500 (VStr "Internal server error")) /\
  fst (serve sample_text
         (make_oracle_request sample_phrase sample_text
            (answers 200 (Exc requests_json_error)) "GET" ORACLE_URL VNone) [])
  = Ok {| resp_status := 500;
          resp_content := VDict [("error", VStr "Internal server error");
                                 ("status_code", VInt 500)] |} /\
  fst (serve sample_text
         (make_oracle_request sample_phrase sample_text
            (answers 200 (Exc requests_json_error)) "GET" ORACLE_URL VNone) [])
  <> Ok (catch_all_envelope "Expecting value: line 1 column 1 (char 0)").
Proof.
  split; [reflexivity|]. split; [reflexivity|]. split; [reflexivity|discriminate].
Qed.

(** ** Worked examples of the further properties *)

(** A creation answered with 201. *)
Lemma forwarding_returns_only_on_success_witness :
  exists r body,
    answers 201 (Ok (VDict [("id", VInt 7)])) (oracle_call "POST" ORACLE_URL (VDict []))
    = Responds r /\
    json r = Ok body /\
    ((status_code r = 200 /\
      VDict [("success", VBool true); ("data", VDict [("id", VInt 7)])] = body) \/
     (status_code r = 201 /\
      VDict [("success", VBool true); ("data", VDict [("id", VInt 7)])]
      = VDict [("success", VBool true); ("data", body)])).
Proof.
  apply (forwarding_returns_only_on_success sample_phrase sample_text
           (answers 201 (Ok (VDict [("id", VInt 7)]))) "POST" ORACLE_URL (VDict []) []).
  reflexivity.
Defined.

(** A read timeout leaves the operation as the 504 failure. *)
Lemma no_request_exception_escapes_witness :
  isinstance (HTTPException 504 (VStr "Oracle database timeout")) ReqTimeout = false /\
  isinstance (HTTPException 504 (VStr "Oracle database timeout")) ReqConnectionError = false /\
  isinstance (HTTPException 504 (VStr "Oracle database timeout")) RequestException = false.
Proof.
  apply (no_request_exception_escapes sample_phrase sample_text (fails read_timeout)
           "GET" ORACLE_URL VNone []).
  reflexivity.
Defined.

(** A null message on a 500, which has a reason phrase, and on a 599, which
    has none. *)
Lemma null_message_takes_reason_phrase_witness :
  fst (make_oracle_request sample_phrase sample_text
         (answers 500 (Ok (VDict [("message", VNone)]))) "GET" ORACLE_URL VNone [])
  = Exc (HTTPException 500 (VStr "Internal Server Error")) /\
  fst (make_oracle_request sample_phrase sample_text
         (answers 599 (Ok (VDict [("message", VNone)]))) "GET" ORACLE_URL VNone [])
  = Exc (ValueError "599 is not a valid HTTPStatus").
Proof.
  split.
  - apply (proj1 (null_message_takes_reason_phrase sample_phrase sample_text
                    (answers 500 (Ok (VDict [("message", VNone)]))) "GET" ORACLE_URL VNone
                    _ [("message", VNone)] [] eq_refl
                    ltac:(discriminate) ltac:(discriminate) ltac:(discriminate)
                    eq_refl eq_refl)).
    reflexivity.
  - apply (proj2 (null_message_takes_reason_phrase sample_phrase sample_text
                    (answers 599 (Ok (VDict [("message", VNone)]))) "GET" ORACLE_URL VNone
                    _ [("message", VNone)] [] eq_refl
                    ltac:(discriminate) ltac:(discriminate) ltac:(discriminate)
                    eq_refl eq_refl)).
    reflexivity.
Defined.

(** A timeout reaches the client as the 504 envelope; an upstream error whose
    message is the number infinity cannot be rendered. *)
Lemma http_exception_is_enveloped_witness :
  serve sample_text
    (make_oracle_request sample_phrase sample_text (fails read_timeout)
       "GET" ORACLE_URL VNone) []
  = (Ok (error_envelope 504 (VStr "Oracle database timeout")), []) /\
  fst (serve sample_text
         (make_oracle_request sample_phrase sample_text
            (answers 500 (Ok (VDict [("message", VFloat infinity)])))
            "GET" ORACLE_URL VNone) [])
  = Ok (catch_all_envelope "Out of range float values are not JSON compliant").
Proof.
  split.
  - apply (proj1 (http_exception_is_enveloped sample_text
                    (make_oracle_request sample_phrase sample_text (fails read_timeout)
                       "GET" ORACLE_URL VNone)
                    [] [] 504 (VStr "Oracle database timeout") eq_refl)).
    reflexivity.
  - rewrite (proj2 (http_exception_is_enveloped sample_text
                      (make_oracle_request sample_phrase sample_text
                         (answers 500 (Ok (VDict [("message", VFloat infinity)])))
                         "GET" ORACLE_URL VNone)
                      [] [status_line "GET" ORACLE_URL 500] 500 (VFloat infinity) eq_refl)).
    + reflexivity.
    + reflexivity.
Defined.

(** The health check while the time service is unreachable. *)
Lemma unhandled_exception_is_logged_witness :
  serve sample_text
    (health_check (upstream (ok_json (VDict [])) (Throws connection_refused))) []
  = (Ok (catch_all_envelope "Connection refused"),
     [unhandled_line "Connection refused"]).
Proof.
  apply (unhandled_exception_is_logged sample_text
           (health_check (upstream (ok_json (VDict [])) (Throws connection_refused)))
           [] [] [ReqConnectionError; RequestException] "Connection refused").
  reflexivity.
Defined.

(** A listing answered with 200. *)
Lemma ok_answer_means_upstream_success_witness :
  exists r body,
    answers 200 (Ok (VDict [("items", VList [])])) (oracle_call "GET" ORACLE_URL VNone)
    = Responds r /\
    json r = Ok body /\
    ((status_code r = 200 /\ VDict [("items", VList [])] = body) \/
     (status_code r = 201 /\
      VDict [("items", VList [])] = VDict [("success", VBool true); ("data", body)])).
Proof.
  apply (ok_answer_means_upstream_success sample_phrase sample_text
           (answers 200 (Ok (VDict [("items", VList [])]))) "GET" ORACLE_URL VNone []
           {| resp_status := 200; resp_content := VDict [("items", VList [])] |});
    reflexivity.
Defined.

(** An upstream that answers 429 with a message. *)
Lemma client_statuses_witness :
  429 = 200 \/ 429 = 500 \/ 429 = 503 \/ 429 = 504 \/
  (exists r,
     answers 429 (Ok (VDict [("message", VStr "slow down")]))
       (oracle_call "GET" ORACLE_URL VNone) = Responds r /\
     429 = status_code r).
Proof.
  apply (client_statuses sample_phrase sample_text
           (answers 429 (Ok (VDict [("message", VStr "slow down")])))
           "GET" ORACLE_URL VNone []
           (error_envelope 429 (VStr "slow down")));
    reflexivity.
Defined.


(** A time service that answers 503 with a body that has the field. *)
Lemma time_lookup_cases_witness :
  fst (current_time
         (upstream (Throws connection_refused)
            (Responds {| status_code := 503;
                         json := Ok (VDict [("datetime", VStr "2025-01-01T12:00:00+03:00")]) |}))
         [])
  = Ok (VStr "2025-01-01T12:00:00+03:00").
Proof.
  apply (proj2 (proj1 (time_lookup_cases
                         (upstream (Throws connection_refused)
                            (Responds {| status_code := 503;
                                         json := Ok (VDict [("datetime",
                                                   VStr "2025-01-01T12:00:00+03:00")]) |}))
                         (VStr "2025-01-01T12:00:00+03:00")))).
  exists {| status_code := 503;
            json := Ok (VDict [("datetime", VStr "2025-01-01T12:00:00+03:00")]) |},
    [("datetime", VStr "2025-01-01T12:00:00+03:00")].
  repeat split.
Defined.

(** The health check while the upstream is unreachable. *)
Lemma health_is_200_whenever_time_is_witness :
  exists oracle_status,
    (oracle_status = "connected" \/ oracle_status = "error"
     \/ oracle_status = "disconnected") /\
    serve sample_text (health_check (upstream (Throws connection_refused) sample_clock)) []
    = (Ok {| resp_status := 200;
             resp_content :=
               health_report oracle_status (VStr "2025-01-01T12:00:00+03:00") |}, []).
Proof.
  apply (health_is_200_whenever_time_is sample_text
           (upstream (Throws connection_refused) sample_clock) []
           (VStr "2025-01-01T12:00:00+03:00"));
    reflexivity.
Defined.

(** The statistics while the upstream times out. *)
Lemma stats_degrade_on_upstream_failure_witness :
  serve sample_text (get_summary_stats sample_phrase sample_text (fails read_timeout)) []
  = (Ok {| resp_status := 200;
           resp_content := degraded "504: Oracle database timeout" |},
     [stats_error_line "504: Oracle database timeout"]).
Proof.
  apply (stats_degrade_on_upstream_failure sample_phrase sample_text (fails read_timeout) []
           (HTTPException 504 (VStr "Oracle database timeout"))).
  reflexivity.
Defined.

(** The statistics of the example while the time service is unreachable. *)
Lemma stats_degrade_on_time_failure_witness :
  fst (get_summary_stats sample_phrase sample_text
         (upstream (ok_json (VDict [("items", VList example_items)]))
            (Throws connection_refused)) [])
  = Ok (degraded "Connection refused") /\
  fst (serve sample_text
         (get_summary_stats sample_phrase sample_text
            (upstream (ok_json (VDict [("items", VList example_items)]))
               (Throws connection_refused))) [])
  = Ok {| resp_status := 200; resp_content := degraded "Connection refused" |}.
Proof.
  apply (stats_degrade_on_time_failure sample_phrase sample_text
           (upstream (ok_json (VDict [("items", VList example_items)]))
              (Throws connection_refused)) []
           (VList example_items) 3 1 (VFloat 15.5) [(VStr "A", 2); (VStr "B", 1)]
           connection_refused).
  - exists {| status_code := 200; json := Ok (VDict [("items", VList example_items)]) |},
      (VDict [("items", VList example_items)]).
    repeat split.
  - reflexivity.
  - reflexivity.
  - reflexivity.
  - reflexivity.
  - reflexivity.
Defined.

(** Two priced records and one whose amount is "n/a". *)
Lemma stats_degrade_on_bad_amount_witness :
  fst (get_summary_stats sample_phrase sample_text
         (upstream (ok_json (VDict [("items", VList mispriced_items)])) sample_clock) [])
  = Ok (degraded "could not convert string to float: 'n/a'").
Proof.
  apply (stats_degrade_on_bad_amount sample_phrase sample_text
           (upstream (ok_json (VDict [("items", VList mispriced_items)])) sample_clock) []
           priced_items
           (VDict [("status", VStr "Pending"); ("total_amount", VStr "n/a")]) []
           [0.5; 0.25]%float
           (ValueError "could not convert string to float: 'n/a'")).
  - exists {| status_code := 200; json := Ok (VDict [("items", VList mispriced_items)]) |},
      (VDict [("items", VList mispriced_items)]).
    repeat split.
  - repeat constructor.
  - repeat constructor.
  - reflexivity.
Defined.

(** A record, a number and another record. *)
Lemma stats_degrade_on_bad_item_witness :
  fst (get_summary_stats sample_phrase sample_text
         (upstream (ok_json (VDict [("items", VList stray_items)])) sample_clock) [])
  = Ok (degraded "'int' object has no attribute 'get'").
Proof.
  apply (stats_degrade_on_bad_item sample_phrase sample_text
           (upstream (ok_json (VDict [("items", VList stray_items)])) sample_clock) []
           [VDict [("status", VStr "Pending")]] (VInt 3) [VDict []]).
  - exists {| status_code := 200; json := Ok (VDict [("items", VList stray_items)]) |},
      (VDict [("items", VList stray_items)]).
    repeat split.
  - repeat constructor.
  - reflexivity.
Defined.

(** A listing whose [items] are null. *)
Lemma stats_degrade_on_unsized_items_witness :
  fst (get_summary_stats sample_phrase sample_text
         (upstream (ok_json (VDict [("items", VNone)])) sample_clock) [])
  = Ok (degraded "object of type 'NoneType' has no len()").
Proof.
  apply (stats_degrade_on_unsized_items sample_phrase sample_text
           (upstream (ok_json (VDict [("items", VNone)])) sample_clock) [] VNone).
  - exists {| status_code := 200; json := Ok (VDict [("items", VNone)]) |},
      (VDict [("items", VNone)]).
    repeat split.
  - discriminate.
  - discriminate.
  - discriminate.
Defined.

(** The example of the specification: one pending of three. *)
Lemma pending_within_total_witness : 0 <= 1 <= 3.
Proof.
  apply (pending_within_total (VList example_items) 3 1); reflexivity.
Defined.

(** The tied items: two keys, two occurrences each, four names. *)
Lemma products_count_the_names_witness :
  NoDup (map key_of (map fst [(VStr "A", 2); (VStr "B", 2)])) /\
  (forall p c, In (p, c) [(VStr "A", 2); (VStr "B", 2)] ->
     In p (product_names tied_items) /\ c = occurrences p (product_names tied_items) /\ 1 <= c) /\
  (forall w, In w (product_names tied_items) ->
     exists p c, In (p, c) [(VStr "A", 2); (VStr "B", 2)] /\ same_product w p = true) /\
  total_count [(VStr "A", 2); (VStr "B", 2)] = Z.of_nat (List.length (product_names tied_items)).
Proof.
  apply (products_count_the_names tied_items [(VStr "A", 2); (VStr "B", 2)]).
  reflexivity.
Defined.

(** The two priced records add up to a float. *)
Lemma revenue_is_int_only_when_empty_witness :
  (iter (VList priced_items) = Ok [] /\ VFloat 0.75 = VInt 0) \/
  (exists r rs x, iter (VList priced_items) = Ok (r :: rs) /\ VFloat 0.75 = VFloat x).
Proof.
  apply (revenue_is_int_only_when_empty (VList priced_items) (VFloat 0.75)).
  reflexivity.
Defined.
